(** * Productivity agent system: the JSON-file task store and the
      prioritisation tool, embedded from [tools/file_processor.py] and
      [agents/task_manager.py].

    The Python code is embedded shallowly.  JSON documents are an inductive
    type; a Python [dict] is an association list in insertion order with
    unique keys; the tasks file, its permissions and the system clock form an
    explicit world that is threaded through a small state-and-exception
    monad; [try]/[except] is a combinator of that monad.

    Python floats are idealised as the rationals they approximate
    ([JFloat] carries a [Q]); the builtin [round] is round-half-to-even on
    that rational. *)

From Stdlib Require Import ZArith QArith Qround List String Ascii Bool Lia.
From Stdlib Require Import Permutation Sorted Lqa.
Import ListNotations.

Local Open Scope Z_scope.

(* ================================================================== *)
(** ** JSON values and Python objects *)

#[warnings="-register-all"]
Inductive json : Type :=
| JNull
| JBool (b : bool)
| JInt (z : Z)
| JFloat (q : Q)
| JStr (s : string)
| JArr (items : list json)
| JObj (fields : list (string * json)).

(** A Python [dict] with string keys. *)
Definition dict : Type := list (string * json).

Fixpoint dict_get (k : string) (d : dict) : option json :=
  match d with
  | [] => None
  | (k', v) :: d' => if String.eqb k k' then Some v else dict_get k d'
  end.

Definition dict_mem (k : string) (d : dict) : bool :=
  match dict_get k d with Some _ => true | None => false end.

(** [d.get(k, default)] *)
Definition dict_get_default (k : string) (dflt : json) (d : dict) : json :=
  match dict_get k d with Some v => v | None => dflt end.

(** [d[k] = v]: an existing key keeps its position, a new key goes last. *)
Fixpoint dict_set (k : string) (v : json) (d : dict) : dict :=
  match d with
  | [] => [(k, v)]
  | (k', v') :: d' =>
      if String.eqb k k' then (k', v) :: d' else (k', v') :: dict_set k v d'
  end.

(** Python truthiness of a JSON-born object. *)
Definition truthy (j : json) : bool :=
  match j with
  | JNull => false
  | JBool b => b
  | JInt z => negb (z =? 0)
  | JFloat q => negb (Qeq_bool q 0)
  | JStr s => negb (String.eqb s EmptyString)
  | JArr l => match l with [] => false | _ => true end
  | JObj d => match d with [] => false | _ => true end
  end.

(** The number a Python numeric object denotes ([bool] is a subclass of
    [int]). *)
Definition num_of (j : json) : option Q :=
  match j with
  | JBool b => Some (if b then 1%Q else 0%Q)
  | JInt z => Some (inject_Z z)
  | JFloat q => Some q
  | _ => None
  end.

(** Python [==] on JSON-born objects: numbers compare by value, lists
    element-wise, dicts regardless of key order. *)
Fixpoint py_eq (a b : json) {struct a} : bool :=
  match a, b with
  | JNull, JNull => true
  | JStr x, JStr y => String.eqb x y
  | JArr xs, JArr ys =>
      (fix all2 (xs : list json) (ys : list json) {struct xs} : bool :=
         match xs, ys with
         | [], [] => true
         | x :: xs', y :: ys' => py_eq x y && all2 xs' ys'
         | _, _ => false
         end) xs ys
  | JObj xs, JObj ys =>
      Nat.eqb (List.length xs) (List.length ys) &&
      (fix sub (xs : list (string * json)) {struct xs} : bool :=
         match xs with
         | [] => true
         | (k, v) :: xs' =>
             match dict_get k ys with
             | Some w => py_eq v w && sub xs'
             | None => false
             end
         end) xs
  | (JBool _ | JInt _ | JFloat _), (JBool _ | JInt _ | JFloat _) =>
      match num_of a, num_of b with
      | Some x, Some y => Qeq_bool x y
      | _, _ => false
      end
  | _, _ => false
  end.

Definition type_name (j : json) : string :=
  match j with
  | JNull => "NoneType"
  | JBool _ => "bool"
  | JInt _ => "int"
  | JFloat _ => "float"
  | JStr _ => "str"
  | JArr _ => "list"
  | JObj _ => "dict"
  end.

(* ================================================================== *)
(** ** Exceptions and outcomes *)

Inductive exn_kind : Type :=
| JSONDecodeError
| FileNotFoundError
| OSError
| AttributeError
| KeyError
| TypeError
| OtherException.

Record exn : Type := Exn { kind : exn_kind; message : string }.

Inductive outcome (A : Type) : Type :=
| Ok (a : A)
| Raise (e : exn).
Arguments Ok {A} a.
Arguments Raise {A} e.

Definition obind {A B} (o : outcome A) (k : A -> outcome B) : outcome B :=
  match o with Ok a => k a | Raise e => Raise e end.

Declare Scope outcome_scope.
Delimit Scope outcome_scope with out.
Notation "x <-- c ;;; k" := (obind c (fun x => k))
  (at level 61, c at next level, right associativity) : outcome_scope.

Definition attribute_error (j : json) (attr : string) : exn :=
  Exn AttributeError
      ("'" ++ type_name j ++ "' object has no attribute '" ++ attr ++ "'")%string.

(** [obj.get(k, default)] *)
Definition py_get (obj : json) (k : string) (dflt : json) : outcome json :=
  match obj with
  | JObj d => Ok (dict_get_default k dflt d)
  | _ => Raise (attribute_error obj "get")
  end.

(** [obj[k]] with a string key. *)
Definition py_getitem (obj : json) (k : string) : outcome json :=
  match obj with
  | JObj d =>
      match dict_get k d with
      | Some v => Ok v
      | None => Raise (Exn KeyError ("'" ++ k ++ "'")%string)
      end
  | JArr _ =>
      Raise (Exn TypeError "list indices must be integers or slices, not str")
  | JStr _ => Raise (Exn TypeError "string indices must be integers")
  | _ =>
      Raise (Exn TypeError
                 ("'" ++ type_name obj ++ "' object is not subscriptable")%string)
  end.

(** [obj[k] = v] with a string key. *)
Definition py_setitem (obj : json) (k : string) (v : json) : outcome json :=
  match obj with
  | JObj d => Ok (JObj (dict_set k v d))
  | JArr _ =>
      Raise (Exn TypeError "list indices must be integers or slices, not str")
  | _ =>
      Raise (Exn TypeError
                 ("'" ++ type_name obj
                      ++ "' object does not support item assignment")%string)
  end.

(** [len(obj)] *)
Definition py_len (obj : json) : outcome Z :=
  match obj with
  | JStr s => Ok (Z.of_nat (String.length s))
  | JArr l => Ok (Z.of_nat (List.length l))
  | JObj d => Ok (Z.of_nat (List.length d))
  | _ =>
      Raise (Exn TypeError
                 ("object of type '" ++ type_name obj ++ "' has no len()")%string)
  end.

Fixpoint chars (s : string) : list json :=
  match s with
  | EmptyString => []
  | String c s' => JStr (String c EmptyString) :: chars s'
  end.

(** The elements a [for] loop or a comprehension visits. *)
Definition py_iter (obj : json) : outcome (list json) :=
  match obj with
  | JArr l => Ok l
  | JObj d => Ok (map (fun kv => JStr (fst kv)) d)
  | JStr s => Ok (chars s)
  | _ =>
      Raise (Exn TypeError
                 ("'" ++ type_name obj ++ "' object is not iterable")%string)
  end.

(** [lst.append(x)] *)
Definition py_append (obj : json) (x : json) : outcome json :=
  match obj with
  | JArr l => Ok (JArr (l ++ [x]))
  | _ => Raise (attribute_error obj "append")
  end.

(** [[t for t in ts if keep(t)]], where [keep] may raise. *)
Fixpoint filter_raising (keep : json -> outcome bool) (ts : list json)
  : outcome (list json) :=
  match ts with
  | [] => Ok []
  | t :: ts' =>
      (b <-- keep t ;;;
       r <-- filter_raising keep ts' ;;;
       Ok (if b then t :: r else r))%out
  end.

(* ================================================================== *)
(** ** Decimal text, dates and times *)

Definition digit_char (d : Z) : ascii := ascii_of_nat (48 + Z.to_nat d).

Fixpoint digits_fuel (fuel : nat) (n : Z) (acc : string) : string :=
  match fuel with
  | O => acc
  | S fuel' =>
      let acc' := String (digit_char (n mod 10)) acc in
      if n <? 10 then acc' else digits_fuel fuel' (n / 10) acc'
  end.

Definition str_of_nonneg (n : Z) : string :=
  digits_fuel (S (Z.to_nat (Z.log2 n))) n EmptyString.

(** [str(n)] for a Python [int]. *)
Definition str_of_Z (z : Z) : string :=
  if z <? 0 then ("-" ++ str_of_nonneg (- z))%string else str_of_nonneg z.

Fixpoint zeros (n : nat) : string :=
  match n with O => EmptyString | S n' => String "0"%char (zeros n') end.

(** Zero-padded decimal of a non-negative number, as [%02d] and the like. *)
Definition padded (width : nat) (n : Z) : string :=
  let s := str_of_nonneg n in
  (zeros (width - String.length s) ++ s)%string.

(** A naive [datetime.datetime]. *)
Record datetime : Type := DateTime {
  year : Z; month : Z; day : Z;
  hour : Z; minute : Z; second : Z; microsecond : Z }.

(** [dt.strftime('%Y%m%d%H%M%S')] *)
Definition strftime_stamp (t : datetime) : string :=
  (padded 4 (year t) ++ padded 2 (month t) ++ padded 2 (day t)
   ++ padded 2 (hour t) ++ padded 2 (minute t) ++ padded 2 (second t))%string.

(** [dt.isoformat()] *)
Definition isoformat (t : datetime) : string :=
  (padded 4 (year t) ++ "-" ++ padded 2 (month t) ++ "-" ++ padded 2 (day t)
   ++ "T" ++ padded 2 (hour t) ++ ":" ++ padded 2 (minute t)
   ++ ":" ++ padded 2 (second t)
   ++ (if (microsecond t =? 0)%Z then EmptyString
       else "." ++ padded 6 (microsecond t)))%string.

Definition dt_fields (t : datetime) : list Z :=
  [year t; month t; day t; hour t; minute t; second t; microsecond t].

Fixpoint lex_ltb (a b : list Z) : bool :=
  match a, b with
  | x :: a', y :: b' => (x <? y) || ((x =? y) && lex_ltb a' b')
  | _, _ => false
  end.

(** [a < b] on naive datetimes. *)
Definition dt_ltb (a b : datetime) : bool := lex_ltb (dt_fields a) (dt_fields b).

(** What [datetime.fromisoformat] yields: a naive value, or one that carries
    a UTC offset. *)
Inductive parsed_datetime : Type :=
| Naive (t : datetime)
| Aware (t : datetime) (offset_minutes : Z).

(** Round half to even, the rule of the builtin [round]. *)
Definition round_half_even (q : Q) : Z :=
  let f := Qfloor q in
  match Qcompare (q - inject_Z f) (1 # 2) with
  | Lt => f
  | Gt => f + 1
  | Eq => if Z.even f then f else f + 1
  end.

(** [round(q, ndigits)] *)
Definition py_round (q : Q) (ndigits : nat) : Q :=
  let scale := inject_Z (10 ^ Z.of_nat ndigits) in
  Qred (inject_Z (round_half_even (q * scale)) / scale).

(* ================================================================== *)
(** ** The world: tasks file, permissions, clock *)

(** What reading [data/tasks.json] meets. *)
Inductive file_state : Type :=
| Missing                 (* no such file *)
| Unreadable              (* the file cannot be opened for reading *)
| Corrupt                 (* the content is not JSON *)
| Holds (doc : json).     (* the content parses to [doc] *)

(** [clock] lists the readings successive [datetime.now()] calls return;
    [ticks] counts the calls made so far. *)
Record world : Type := World {
  tasks_file : file_state;
  writable : bool;
  clock : nat -> datetime;
  ticks : nat }.

Definition set_file (f : file_state) (w : world) : world :=
  World f (writable w) (clock w) (ticks w).

(** State and exceptions: a computation maps a world to an outcome and
    the world it leaves. *)
Definition M (A : Type) : Type := world -> outcome A * world.

Definition ret {A} (a : A) : M A := fun w => (Ok a, w).
Definition raise {A} (e : exn) : M A := fun w => (Raise e, w).

Definition bind {A B} (m : M A) (k : A -> M B) : M B :=
  fun w =>
    match m w with
    | (Ok a, w') => k a w'
    | (Raise e, w') => (Raise e, w')
    end.

Definition lift {A} (o : outcome A) : M A := fun w => (o, w).

Declare Scope py_scope.
Delimit Scope py_scope with py.
Notation "x <- c ;; k" := (bind c (fun x => k))
  (at level 61, c at next level, right associativity) : py_scope.
Notation "c ;; k" := (bind c (fun _ => k))
  (at level 61, right associativity) : py_scope.

(** [try: body  except ...: handler]: [handler e] is [None] when no
    [except] clause matches [e]. *)
Definition try_except {A} (body : M A) (handler : exn -> option (M A)) : M A :=
  fun w =>
    match body w with
    | (Ok a, w') => (Ok a, w')
    | (Raise e, w') =>
        match handler e with
        | Some h => h w'
        | None => (Raise e, w')
        end
    end.

(** [datetime.now()] *)
Definition datetime_now : M datetime :=
  fun w => (Ok (clock w (ticks w)),
            World (tasks_file w) (writable w) (clock w) (S (ticks w))).

(** [with open(self.tasks_file, 'r') as f: data = json.load(f)] *)
Definition read_json : M json :=
  fun w =>
    match tasks_file w with
    | Missing =>
        (Raise (Exn FileNotFoundError
                    "[Errno 2] No such file or directory: 'data/tasks.json'"), w)
    | Unreadable =>
        (Raise (Exn OSError "[Errno 13] Permission denied: 'data/tasks.json'"), w)
    | Corrupt =>
        (Raise (Exn JSONDecodeError "Expecting value: line 1 column 1 (char 0)"), w)
    | Holds doc => (Ok doc, w)
    end.

(** [with open(self.tasks_file, 'w') as f: json.dump(data, f, indent=2)] *)
Definition write_json (data : json) : M unit :=
  fun w =>
    if writable w then (Ok tt, set_file (Holds data) w)
    else (Raise (Exn OSError "[Errno 13] Permission denied: 'data/tasks.json'"), w).

(** Library functions of the Python runtime that the code calls and this
    development leaves open. *)
Record runtime : Type := Runtime {
  (** [json.loads] *)
  json_loads : string -> outcome json;
  (** [datetime.fromisoformat] *)
  fromisoformat : string -> outcome parsed_datetime;
  (** [str(x)] for an object that is not a [str] *)
  py_str : json -> string;
  (** the key text [json.dumps] writes for a scalar key that is not a [str] *)
  json_key : json -> string }.

Definition error_response (msg : string) : json := JObj [("error"%string, JStr msg)].

Definition newline : string := String (ascii_of_nat 10) EmptyString.

(* ================================================================== *)
(** ** [FileProcessorTool] *)

Section FileProcessor.

Variable rt : runtime.

Local Open Scope string_scope.
Local Open Scope py_scope.

(** How an f-string renders an object. *)
Definition fmt (j : json) : string :=
  match j with JStr s => s | _ => py_str rt j end.

Definition success (msg : string) (task : json) : json :=
  JObj [("status", JStr "success"); ("message", JStr msg); ("task", task)].

(** *** [_ensure_data_file] *)

(** [os.path.exists(self.tasks_file)] *)
Definition path_exists : M bool :=
  fun w => (Ok (match tasks_file w with Missing => false | _ => true end), w).

(** [open(self.tasks_file, 'w')], before anything is written. *)
Definition open_for_writing : M unit :=
  fun w =>
    if writable w then (Ok tt, w)
    else (Raise (Exn OSError "[Errno 13] Permission denied: 'data/tasks.json'"), w).

(** [os.makedirs("data", exist_ok=True)] succeeds whenever the file exists;
    where the file is missing, a location that cannot be written shows at
    [open].  The clock is read inside the [with] block, after the open. *)
Definition _ensure_data_file : M unit :=
  present <- path_exists ;;
  if (present : bool) then ret tt
  else
    open_for_writing ;;
    t <- datetime_now ;;
    write_json (JObj [("tasks", JArr []); ("last_updated", JStr (isoformat t))]).

(** The read that four operations guard with a bare [except:] whose body
    returns at once: [None] stands for the handler having been taken. *)
Definition try_load : M (option json) :=
  try_except (data <- read_json ;; ret (Some data)) (fun _ => Some (ret None)).

(** *** [_load_tasks] *)

(** [t.get(field) == wanted] *)
Definition field_is (field : string) (wanted : json) (t : json) : outcome bool :=
  (v <-- py_get t field JNull ;;; Ok (py_eq v wanted))%out.

(** [[t for t in tasks if t.get(field) == wanted]] *)
Definition select (field : string) (wanted : json) (tasks : json) : outcome json :=
  (ts <-- py_iter tasks ;;;
   r <-- filter_raising (field_is field wanted) ts ;;;
   Ok (JArr r))%out.

Definition _load_tasks (params : dict) : M json :=
  try_except
    (data <- read_json ;;
     tasks <- lift (py_get data "tasks" (JArr [])) ;;
     let status_filter := dict_get_default "status" JNull params in
     let priority_filter := dict_get_default "priority" JNull params in
     tasks <- (if truthy status_filter
               then lift (select "status" status_filter tasks)
               else ret tasks) ;;
     tasks <- (if truthy priority_filter
               then lift (select "priority" priority_filter tasks)
               else ret tasks) ;;
     n <- lift (py_len tasks) ;;
     last <- lift (py_get data "last_updated" (JStr "")) ;;
     ret (JObj [("tasks", tasks); ("count", JInt n); ("last_updated", last)]))
    (fun e =>
       match kind e with
       | FileNotFoundError =>
           Some (ret (JObj [("tasks", JArr []); ("count", JInt 0)]))
       | _ => Some (ret (error_response (message e)))
       end).

(** *** [_save_task] *)

Definition new_task_record (task_id : string) (params : dict)
           (created updated : datetime) : json :=
  JObj [("id", JStr task_id);
        ("title", dict_get_default "title" (JStr "Untitled Task") params);
        ("description", dict_get_default "description" (JStr "") params);
        ("priority", dict_get_default "priority" (JStr "medium") params);
        ("status", dict_get_default "status" (JStr "pending") params);
        ("deadline", dict_get_default "deadline" (JStr "") params);
        ("estimated_duration", dict_get_default "estimated_duration" (JInt 60) params);
        ("tags", dict_get_default "tags" (JArr []) params);
        ("created_at", JStr (isoformat created));
        ("updated_at", JStr (isoformat updated))].

(** [f"task_{len(tasks) + 1}_{datetime.now().strftime('%Y%m%d%H%M%S')}"] *)
Definition make_task_id (n : Z) (t : datetime) : string :=
  "task_" ++ str_of_Z (n + 1) ++ "_" ++ strftime_stamp t.

Definition _save_task (params : dict) : M json :=
  data <- try_except read_json
            (fun _ => Some (ret (JObj [("tasks", JArr []); ("last_updated", JStr "")]))) ;;
  tasks <- lift (py_get data "tasks" (JArr [])) ;;
  n <- lift (py_len tasks) ;;
  t_id <- datetime_now ;;
  t_created <- datetime_now ;;
  t_updated <- datetime_now ;;
  let new_task := new_task_record (make_task_id n t_id) params t_created t_updated in
  tasks <- lift (py_append tasks new_task) ;;
  data <- lift (py_setitem data "tasks" tasks) ;;
  t_last <- datetime_now ;;
  data <- lift (py_setitem data "last_updated" (JStr (isoformat t_last))) ;;
  write_json data ;;
  ret (success "Task saved successfully" new_task).

(** *** [_update_task] *)

(** [if field in params: task[field] = params[field]] *)
Definition overwrite (field : string) (params : dict) (task : json) : outcome json :=
  match dict_get field params with
  | Some v => py_setitem task field v
  | None => Ok task
  end.

(** The six assignments guarded by [in params], in source order. *)
Definition apply_fields (params : dict) (task : json) : outcome json :=
  (task <-- overwrite "title" params task ;;;
   task <-- overwrite "description" params task ;;;
   task <-- overwrite "priority" params task ;;;
   task <-- overwrite "status" params task ;;;
   task <-- overwrite "deadline" params task ;;;
   overwrite "estimated_duration" params task)%out.

(** The [for task in tasks] loop.  [seen] are the records already passed,
    [rest] those still to visit; the record being mutated is an element of
    the list that [data] holds under ["tasks"], so the mutation shows in
    [data]. *)
Fixpoint update_scan (params : dict) (task_id : json) (data : json)
         (seen rest : list json) : M json :=
  match rest with
  | [] => ret (error_response ("Task with id " ++ fmt task_id ++ " not found"))
  | task :: rest' =>
      id <- lift (py_getitem task "id") ;;
      if py_eq id task_id then
        task <- lift (apply_fields params task) ;;
        t_updated <- datetime_now ;;
        task <- lift (py_setitem task "updated_at" (JStr (isoformat t_updated))) ;;
        data <- lift (py_setitem data "tasks" (JArr (seen ++ task :: rest'))) ;;
        t_last <- datetime_now ;;
        data <- lift (py_setitem data "last_updated" (JStr (isoformat t_last))) ;;
        write_json data ;;
        ret (success "Task updated successfully" task)
      else update_scan params task_id data (seen ++ [task]) rest'
  end.

Definition _update_task (params : dict) : M json :=
  let task_id := dict_get_default "task_id" JNull params in
  if negb (truthy task_id) then ret (error_response "task_id is required")
  else
    loaded <- try_load ;;
    match loaded with
    | None => ret (error_response "No tasks file found")
    | Some data =>
        tasks <- lift (py_get data "tasks" (JArr [])) ;;
        ts <- lift (py_iter tasks) ;;
        update_scan params task_id data [] ts
    end.

(** *** [_delete_task] *)

(** [t['id'] != task_id] *)
Definition id_differs (task_id : json) (t : json) : outcome bool :=
  (id <-- py_getitem t "id" ;;; Ok (negb (py_eq id task_id)))%out.

Definition _delete_task (params : dict) : M json :=
  let task_id := dict_get_default "task_id" JNull params in
  if negb (truthy task_id) then ret (error_response "task_id is required")
  else
    loaded <- try_load ;;
    match loaded with
    | None => ret (error_response "No tasks file found")
    | Some data =>
        tasks <- lift (py_get data "tasks" (JArr [])) ;;
        original_count <- lift (py_len tasks) ;;
        ts <- lift (py_iter tasks) ;;
        kept <- lift (filter_raising (id_differs task_id) ts) ;;
        if Z.eqb (Z.of_nat (List.length kept)) original_count then
          ret (error_response ("Task with id " ++ fmt task_id ++ " not found"))
        else
          data <- lift (py_setitem data "tasks" (JArr kept)) ;;
          t_last <- datetime_now ;;
          data <- lift (py_setitem data "last_updated" (JStr (isoformat t_last))) ;;
          write_json data ;;
          ret (JObj [("status", JStr "success");
                     ("message", JStr ("Task " ++ fmt task_id ++ " deleted successfully"));
                     ("remaining_tasks", JInt (Z.of_nat (List.length kept)))])
    end.

(** *** [_generate_report] *)

(** A dict of counters, [str -> int]. *)
Definition counters : Type := list (string * Z).

Fixpoint counter_get (k : string) (c : counters) : Z :=
  match c with
  | [] => 0
  | (k', n) :: c' => if String.eqb k k' then n else counter_get k c'
  end.

Fixpoint counter_set (k : string) (n : Z) (c : counters) : counters :=
  match c with
  | [] => [(k, n)]
  | (k', n') :: c' =>
      if String.eqb k k' then (k', n) :: c' else (k', n') :: counter_set k n c'
  end.

(** [c[k] = c.get(k, 0) + 1] *)
Definition bump (k : string) (c : counters) : counters :=
  counter_set k (counter_get k c + 1) c.

Definition counters_json (c : counters) : json :=
  JObj (map (fun kn => (fst kn, JInt (snd kn))) c).

(** The text under which a value is used as a dict key. *)
Definition key_text (j : json) : outcome string :=
  match j with
  | JStr s => Ok s
  | JArr _ | JObj _ =>
      Raise (Exn TypeError ("unhashable type: '" ++ type_name j ++ "'"))
  | _ => Ok (json_key rt j)
  end.

(** The body of the inner [try]: parse the deadline, compare it with
    [now], and only then look at the status. *)
Definition overdue_test (now : datetime) (task deadline : json) : outcome bool :=
  (parsed <-- match deadline with
              | JStr s => fromisoformat rt s
              | _ => Raise (Exn TypeError "fromisoformat: argument must be str")
              end ;;;
   before <-- match parsed with
              | Naive d => Ok (dt_ltb d now)
              | Aware _ _ =>
                  Raise (Exn TypeError
                             "can't compare offset-naive and offset-aware datetimes")
              end ;;;
   if (before : bool) then
     st <-- py_get task "status" JNull ;;;
     Ok (negb (py_eq st (JStr "completed")))
   else Ok false)%out.

(** [try: ... overdue += 1  except: pass] *)
Definition overdue_step (now : datetime) (task deadline : json) : Z :=
  match overdue_test now task deadline with
  | Ok true => 1
  | _ => 0
  end.

Record tally : Type := Tally {
  by_status : counters;
  by_priority : counters;
  overdue : Z }.

Definition report_step (now : datetime) (acc : tally) (task : json) : outcome tally :=
  (status <-- py_get task "status" (JStr "pending") ;;;
   sk <-- key_text status ;;;
   priority <-- py_get task "priority" (JStr "medium") ;;;
   pk <-- key_text priority ;;;
   deadline <-- py_get task "deadline" (JStr "") ;;;
   Ok (Tally (bump sk (by_status acc))
             (bump pk (by_priority acc))
             (overdue acc + (if truthy deadline
                             then overdue_step now task deadline else 0))))%out.

Fixpoint report_loop (now : datetime) (acc : tally) (ts : list json) : outcome tally :=
  match ts with
  | [] => Ok acc
  | t :: ts' => (acc' <-- report_step now acc t ;;; report_loop now acc' ts')%out
  end.

(** [round(completed / total * 100, 1) if total > 0 else 0] *)
Definition completion_rate (completed total : Z) : json :=
  if Z.gtb total 0 then
    JFloat (py_round (inject_Z completed / inject_Z total * 100)%Q 1)
  else JInt 0.

Definition _generate_report (params : dict) : M json :=
  loaded <- try_load ;;
  match loaded with
  | None => ret (error_response "No tasks file found")
  | Some data =>
      tasks <- lift (py_get data "tasks" (JArr [])) ;;
      if negb (truthy tasks) then
        ret (JObj [("report", JStr "No tasks found");
                   ("summary", JObj [("total", JInt 0)])])
      else
        total <- lift (py_len tasks) ;;
        now <- datetime_now ;;
        ts <- lift (py_iter tasks) ;;
        t <- lift (report_loop now (Tally [] [] 0) ts) ;;
        let rate := completion_rate (counter_get "completed" (by_status t)) total in
        t_gen <- datetime_now ;;
        ret (JObj [("summary",
                    JObj [("total_tasks", JInt total);
                          ("by_status", counters_json (by_status t));
                          ("by_priority", counters_json (by_priority t));
                          ("overdue_tasks", JInt (overdue t))]);
                   ("completion_rate", rate);
                   ("generated_at", JStr (isoformat t_gen))])
  end.

(** *** [_export_tasks] *)

Definition csv_header : string := "ID,Title,Priority,Status,Deadline".

(** One f-string row. *)
Definition csv_row (task : json) : outcome string :=
  (id <-- py_getitem task "id" ;;;
   title <-- py_getitem task "title" ;;;
   priority <-- py_getitem task "priority" ;;;
   status <-- py_getitem task "status" ;;;
   deadline <-- py_get task "deadline" (JStr "") ;;;
   Ok (fmt id ++ "," ++ fmt title ++ "," ++ fmt priority ++ ","
       ++ fmt status ++ "," ++ fmt deadline))%out.

Fixpoint csv_rows (ts : list json) : outcome (list string) :=
  match ts with
  | [] => Ok []
  | t :: ts' =>
      (r <-- csv_row t ;;; rs <-- csv_rows ts' ;;; Ok (r :: rs))%out
  end.

(** [sep.join(lines)] *)
Fixpoint join (sep : string) (lines : list string) : string :=
  match lines with
  | [] => ""
  | [l] => l
  | l :: ls => l ++ sep ++ join sep ls
  end.

Definition _export_tasks (params : dict) : M json :=
  let format_type := dict_get_default "format" (JStr "json") params in
  loaded <- try_load ;;
  match loaded with
  | None => ret (error_response "No tasks file found")
  | Some data =>
      tasks <- lift (py_get data "tasks" (JArr [])) ;;
      if py_eq format_type (JStr "csv") then
        ts <- lift (py_iter tasks) ;;
        rows <- lift (csv_rows ts) ;;
        n <- lift (py_len tasks) ;;
        ret (JObj [("format", JStr "csv");
                   ("data", JStr (join newline (csv_header :: rows)));
                   ("count", JInt n)])
      else
        n <- lift (py_len tasks) ;;
        ret (JObj [("format", JStr "json"); ("data", tasks); ("count", JInt n)])
  end.

(** *** [_run] *)

(** [action = params.get('action', '')] and the [if]/[elif] chain; an
    object that is not a dict has no [get]. *)
Definition dispatch (params : json) : M json :=
  match params with
  | JObj p =>
      let action := dict_get_default "action" (JStr "") p in
      if py_eq action (JStr "load") then _load_tasks p
      else if py_eq action (JStr "save") then _save_task p
      else if py_eq action (JStr "update") then _update_task p
      else if py_eq action (JStr "delete") then _delete_task p
      else if py_eq action (JStr "report") then _generate_report p
      else if py_eq action (JStr "export") then _export_tasks p
      else ret (error_response "Invalid action")
  | _ => raise (attribute_error params "get")
  end.

Definition _run (input_str : string) : M json :=
  try_except
    (params <- lift (json_loads rt input_str) ;;
     dispatch params)
    (fun e =>
       match kind e with
       | JSONDecodeError => Some (ret (error_response "Invalid JSON input"))
       | _ => Some (ret (error_response (message e)))
       end).

End FileProcessor.

(* ================================================================== *)
(** ** [prioritize_tasks_tool] *)

Section Prioritize.

Variable rt : runtime.

Local Open Scope string_scope.

(** [a > b] on numbers. *)
Definition Qgtb (a b : Q) : bool := negb (Qle_bool a b).

(** The operand of [* 0.4] and [* 0.6]. *)
Definition operand (j : json) : outcome Q :=
  match num_of j with
  | Some q => Ok q
  | None =>
      Raise (Exn TypeError
                 ("unsupported operand type(s) for *: '" ++ type_name j
                    ++ "' and 'float'"))
  end.

(** [(urgency * 0.4) + (importance * 0.6)] *)
Definition priority_score (urgency importance : Q) : Q :=
  (urgency * (4 # 10) + importance * (6 # 10))%Q.

(** The [if]/[elif] chain: quadrant text and priority level. *)
Definition quadrant_of (urgency importance : Q) : string * string :=
  if Qgtb urgency 6 && Qgtb importance 6 then
    ("DO FIRST - Urgent & Important", "critical")
  else if Qle_bool urgency 6 && Qgtb importance 6 then
    ("SCHEDULE - Not Urgent but Important", "high")
  else if Qgtb urgency 6 && Qle_bool importance 6 then
    ("DELEGATE - Urgent but Not Important", "medium")
  else
    ("ELIMINATE - Neither Urgent nor Important", "low").

(** One pass of the [for task in tasks] loop. *)
Definition label_task (task : json) : outcome json :=
  (u <-- py_get task "urgency" (JInt 5) ;;;
   i <-- py_get task "importance" (JInt 5) ;;;
   urgency <-- operand u ;;;
   importance <-- operand i ;;;
   let score := priority_score urgency importance in
   let q := quadrant_of urgency importance in
   task <-- py_setitem task "priority_score" (JFloat (py_round score 2)) ;;;
   task <-- py_setitem task "quadrant" (JStr (fst q)) ;;;
   py_setitem task "priority_level" (JStr (snd q)))%out.

Fixpoint label_all (ts : list json) : outcome (list json) :=
  match ts with
  | [] => Ok []
  | t :: ts' =>
      (t' <-- label_task t ;;; r <-- label_all ts' ;;; Ok (t' :: r))%out
  end.

(** [x['priority_score']], the sort key; every record the loop has
    labelled carries it as a float. *)
Definition score_key (t : json) : Q :=
  match t with
  | JObj d =>
      match dict_get "priority_score" d with
      | Some (JFloat q) => q
      | _ => 0%Q
      end
  | _ => 0%Q
  end.

(** [list.sort(key=score_key, reverse=True)] is a stable sort into
    descending key order; such a sort has one possible result, which
    insertion from the right computes. *)
Fixpoint insert_desc (x : json) (l : list json) : list json :=
  match l with
  | [] => [x]
  | y :: l' =>
      if Qgtb (score_key y) (score_key x) then y :: insert_desc x l'
      else x :: y :: l'
  end.

Definition sort_desc (l : list json) : list json := fold_right insert_desc [] l.

Definition recommendation : string :=
  "Focus on 'DO FIRST' tasks immediately, schedule time for 'SCHEDULE' tasks".

(** The body of the [try]. *)
Definition prioritize_body (tasks_json : string) : outcome json :=
  (tasks <-- json_loads rt tasks_json ;;;
   ts <-- py_iter tasks ;;;
   labelled <-- label_all ts ;;;
   match tasks with
   | JArr _ =>
       Ok (JObj [("prioritized_tasks", JArr (sort_desc labelled));
                 ("recommendation", JStr recommendation)])
   | _ => Raise (attribute_error tasks "sort")
   end)%out.

Definition prioritize_tasks_tool (tasks_json : string) : json :=
  match prioritize_body tasks_json with
  | Ok r => r
  | Raise e => error_response (message e)
  end.

End Prioritize.

(* ================================================================== *)
(** ** Conflict detection of the date utility *)

Record conflict_report : Type := ConflictReport {
  has_conflict : bool;
  overlap_minutes : Z }.

(** Modelled from the spec: [tools/date_calculator.py], which holds
    [check_conflict], is not among the sources (only its test and its
    import are).  Instants are minutes on a common time line.  Two intervals
    conflict iff they share any open overlap; [overlap_minutes] is the size
    of the intersection, zero when they are disjoint or merely touch. *)
Definition check_conflict (event1_start event1_end event2_start event2_end : Z)
  : conflict_report :=
  let latest_start := Z.max event1_start event2_start in
  let earliest_end := Z.min event1_end event2_end in
  ConflictReport (latest_start <? earliest_end)
                 (Z.max 0 (earliest_end - latest_start)).

(* ================================================================== *)
(** ** Vocabulary of the statements *)

Local Open Scope string_scope.

(** A stored record: a dict. *)
Definition is_record (t : json) : Prop := exists d, t = JObj d.

(** The value a record holds under [field], if it is a dict holding one. *)
Definition field (name : string) (t : json) : option json :=
  match t with JObj d => dict_get name d | _ => None end.

(** A record whose identifier is a non-empty string, as [_save_task]
    writes them. *)
Definition has_string_id (t : json) : Prop :=
  exists d s, t = JObj d /\ dict_get "id" d = Some (JStr s) /\ s <> "".








(** Whether the record holds exactly the string [s] under [name]. *)
Definition field_equals (name s : string) (t : json) : bool :=
  match field name t with
  | Some (JStr v) => String.eqb v s
  | _ => false
  end.

(** Whether the record's identifier is [sid]. *)
Definition has_id (sid : string) (t : json) : bool := field_equals "id" sid t.

(** The stored records without those whose identifier is [sid]. *)
Definition without_id (sid : string) (ts : list json) : list json :=
  filter (fun t => negb (has_id sid t)) ts.

(** The document a mutating operation persists: [tasks] under ["tasks"]
    and the reading [t] under ["last_updated"]. *)
Definition persisted (t : datetime) (tasks : list json) (doc : dict) : dict :=
  dict_set "last_updated" (JStr (isoformat t)) (dict_set "tasks" (JArr tasks) doc).

Definition delete_response (sid : string) (remaining : nat) : json :=
  JObj [("status", JStr "success");
        ("message", JStr ("Task " ++ sid ++ " deleted successfully"));
        ("remaining_tasks", JInt (Z.of_nat remaining))].

Definition not_found (sid : string) : json :=
  error_response ("Task with id " ++ sid ++ " not found").

(** The fields an [update] request can overwrite. *)
Definition updatable : list string :=
  ["title"; "description"; "priority"; "status"; "deadline"; "estimated_duration"].

Definition is_updatable (k : string) : bool := existsb (String.eqb k) updatable.

(** [d] after the guarded assignment of one field. *)
Definition overwritten (name : string) (params : dict) (d : dict) : dict :=
  match dict_get name params with
  | Some v => dict_set name v d
  | None => d
  end.

(** [d] after the six guarded assignments and the refresh of
    ["updated_at"]. *)
Definition updated_record (params : dict) (t : datetime) (d : dict) : dict :=
  dict_set "updated_at" (JStr (isoformat t))
           (fold_left (fun acc name => overwritten name params acc) updatable d).









Definition empty_report : json :=
  JObj [("report", JStr "No tasks found"); ("summary", JObj [("total", JInt 0)])].


(** A record with the four fields a CSV row indexes. *)
Definition exportable (t : json) : Prop :=
  exists d, t = JObj d
            /\ dict_mem "id" d = true /\ dict_mem "title" d = true
            /\ dict_mem "priority" d = true /\ dict_mem "status" d = true.

(** The text of one CSV cell: the field's value as an f-string renders it,
    nothing for a field the record lacks. *)
Definition cell (rt : runtime) (name : string) (t : json) : string :=
  match field name t with Some v => fmt rt v | None => "" end.

(** One CSV row: the five cells joined by commas. *)
Definition csv_line (rt : runtime) (t : json) : string :=
  join "," (map (fun name => cell rt name t)
                ["id"; "title"; "priority"; "status"; "deadline"]).

Definition csv_export (rt : runtime) (ts : list json) : json :=
  JObj [("format", JStr "csv");
        ("data", JStr (join newline (csv_header :: map (csv_line rt) ts)));
        ("count", JInt (Z.of_nat (List.length ts)))].

Definition json_export (ts : list json) : json :=
  JObj [("format", JStr "json"); ("data", JArr ts);
        ("count", JInt (Z.of_nat (List.length ts)))].

(** The document [_save_task] starts from when the read fails. *)
Definition blank_doc : dict := [("tasks", JArr []); ("last_updated", JStr "")].

(** The record [_save_task] builds on a world [w] that holds [n] records:
    the first three clock readings give the identifier stamp, [created_at]
    and [updated_at]. *)
Definition saved_record (params : dict) (w : world) (n : nat) : json :=
  new_task_record (make_task_id (Z.of_nat n) (clock w (ticks w))) params
                  (clock w (S (ticks w))) (clock w (S (S (ticks w)))).

(** The world [_save_task] leaves: the new record appended, the fourth
    reading under ["last_updated"]. *)
Definition world_after_save (params : dict) (w : world) (doc : dict)
           (ts : list json) : world :=
  World (Holds (JObj (persisted (clock w (S (S (S (ticks w)))))
                                (ts ++ [saved_record params w (List.length ts)])
                                doc)))
        true (clock w) (S (S (S (S (ticks w))))).

(** The actions [_run] recognises. *)
Definition actions : list string :=
  ["load"; "save"; "update"; "delete"; "report"; "export"].

Definition recognised (action : json) : bool :=
  existsb (fun a => py_eq action (JStr a)) actions.

(** Save two tasks, delete the first, save a third, all within one second
    of the fixture clock. *)
Definition save_save_delete_save (rt : runtime) : M json :=
  (_save_task [("title", JStr "A")] ;;
   _save_task [("title", JStr "B")] ;;
   _delete_task rt [("task_id", JStr "task_1_20240115103000")] ;;
   _save_task [("title", JStr "C")])%py.

(** Whether a record meets one filter of a [load] request: a filter that
    is absent or empty lets every record through, any other keeps the
    records whose field is that very string. *)
Definition meets (name : string) (wanted : option string) (t : json) : bool :=
  match wanted with
  | None => true
  | Some s =>
      String.eqb s "" || field_equals name s t
  end.

Definition load_response (out : list json) (last : json) : json :=
  JObj [("tasks", JArr out); ("count", JInt (Z.of_nat (List.length out)));
        ("last_updated", last)].

(** A store of one pending task, and a [load] request whose status filter
    is the empty string. *)
Definition pending_task : json :=
  JObj [("id", JStr "task_1_20240115103000"); ("title", JStr "Write report");
        ("status", JStr "pending"); ("priority", JStr "high")].

Definition fixture_clock (n : nat) : datetime :=
  DateTime 2024 1 15 10 30 0 (Z.of_nat n + 1).

Definition store_of (ts : list json) : world :=
  World (Holds (JObj [("tasks", JArr ts); ("last_updated", JStr "")]))
        true fixture_clock 0.

(** A runtime for closed examples: the parser answers [doc] whatever the
    text, and [fromisoformat] knows the listed date strings only. *)
Definition fixture_runtime (doc : json) (dates : list (string * datetime)) : runtime :=
  Runtime (fun _ => Ok doc)
          (fun s =>
             match find (fun sd => String.eqb s (fst sd)) dates with
             | Some sd => Ok (Naive (snd sd))
             | None => Raise (Exn OtherException ("Invalid isoformat string: " ++ s))
             end)
          (fun j => match j with JInt z => str_of_Z z | _ => type_name j end)
          (fun j => match j with JInt z => str_of_Z z | _ => type_name j end).

(** Fixtures of the closed examples. *)
Definition demo_runtime : runtime :=
  fixture_runtime (JObj [("action", JStr "archive")])
                  [("2024-01-10T09:00:00", DateTime 2024 1 10 9 0 0 0)].

(** A clock whose reading does not advance from one call to the next. *)
Definition frozen_clock (n : nat) : datetime := DateTime 2024 1 15 10 30 0 0.

Definition frozen_empty_store : world :=
  World (Holds (JObj blank_doc)) true frozen_clock 0.

Definition update_request : dict :=
  [("task_id", JStr "task_1_20240115103000"); ("title", JStr "Final");
   ("tags", JArr [JStr "urgent"])].


Definition late_task : json :=
  JObj [("id", JStr "task_3_20240115103000"); ("title", JStr "Call, then write");
        ("status", JStr "pending"); ("priority", JStr "high");
        ("deadline", JStr "2024-01-10T09:00:00")].

(** Two worlds with the same file, permissions and clock; only the count
    of clock readings may differ. *)
Definition same_store (w w' : world) : Prop :=
  tasks_file w' = tasks_file w /\ writable w' = writable w /\ clock w' = clock w.

(** A computation that, started in a world meeting [guard], ends in a
    world with the same store. *)
Definition undisturbed (guard : world -> Prop) {A} (m : M A) : Prop :=
  forall w, guard w -> same_store w (snd (m w)).

Definition any_world (w : world) : Prop := True.

Definition read_only_world (w : world) : Prop := writable w = false.

(** A store in good order: the file holds an object whose ["tasks"] is a
    list of records, each with a non-empty string identifier. *)
Definition well_kept (w : world) : Prop :=
  exists doc ts,
    tasks_file w = Holds (JObj doc)
    /\ dict_get "tasks" doc = Some (JArr ts)
    /\ Forall has_string_id ts.

(** [t['id'] != task_id] on a record with an identifier. *)
Definition other_id (task_id : json) (t : json) : bool :=
  match field "id" t with
  | Some v => negb (py_eq v task_id)
  | None => true
  end.

(** The value the prioritisation reads for an axis: the task's own, or 5. *)
Definition effective (name : string) (d : dict) : json :=
  dict_get_default name (JInt 5) d.


(** A task the labelling loop fails on. *)
Definition unlabelable (t : json) : Prop :=
  (forall d, t <> JObj d)
  \/ exists d, t = JObj d
               /\ (num_of (effective "urgency" d) = None
                   \/ num_of (effective "importance" d) = None).


(** The value of a decimal digit character. *)
Definition digit_value (c : ascii) : option Z :=
  let n := Z.of_nat (nat_of_ascii c) in
  if (48 <=? n)%Z && (n <=? 57)%Z then Some (n - 48)%Z else None.

(** Reads the decimal digits a text starts with: their value on top of
    [acc], and the rest of the text. *)
Fixpoint read_digits (s : string) (acc : Z) : Z * string :=
  match s with
  | EmptyString => (acc, EmptyString)
  | String c s' =>
      match digit_value c with
      | Some d => read_digits s' (10 * acc + d)%Z
      | None => (acc, s)
      end
  end.

(** The record carries the identifier [_save_task] would assign at
    collection size [n], for some clock reading. *)
Definition numbered (n : Z) (t : json) : Prop :=
  exists stamp, field "id" t = Some (JStr (make_task_id n stamp)).

(** Records numbered by position from [start]: the state of a collection
    that has only ever been appended to. *)
Fixpoint sequenced (start : Z) (ts : list json) : Prop :=
  match ts with
  | [] => True
  | t :: rest => is_record t /\ numbered start t /\ sequenced (start + 1) rest
  end.



(** [b] is the record [a] as far as identity goes: same identifier, same
    creation stamp, still a record with a non-empty string identifier. *)
Definition same_identity (a b : json) : Prop :=
  has_string_id b
  /\ field "id" b = field "id" a
  /\ field "created_at" b = field "created_at" a.

(** More fixtures: a store that cannot be written, a document without a
    task list, a record without identifier, a task without urgency. *)
Definition locked_store : world :=
  World (Holds (JObj [("tasks", JArr [pending_task]); ("last_updated", JStr "")]))
        false fixture_clock 0.

Definition bare_store : world :=
  World (Holds (JObj [("owner", JStr "me")])) true fixture_clock 0.

Definition nameless_task : json :=
  JObj [("title", JStr "No identifier"); ("status", JStr "pending")].



Definition delete_first : dict := [("task_id", JStr "task_1_20240115103000")].

(* ================================================================== *)
(** ** Dicts and equality *)

Lemma dict_get_set_same (k : string) (v : json) (d : dict) :
  dict_get k (dict_set k v d) = Some v.
Proof.
  induction d as [|[k' v'] d IH]; simpl.
  - now rewrite String.eqb_refl.
  - destruct (String.eqb k k') eqn:E; simpl; rewrite E; auto.
Qed.

Lemma dict_get_set_other (k k' : string) (v : json) (d : dict) :
  k <> k' -> dict_get k (dict_set k' v d) = dict_get k d.
Proof.
  intros Hne. induction d as [|[k0 v0] d IH]; simpl.
  - destruct (String.eqb_spec k k'); congruence.
  - destruct (String.eqb_spec k' k0) as [->|Hk0]; simpl.
    + destruct (String.eqb_spec k k0); congruence.
    + destruct (String.eqb_spec k k0); auto.
Qed.

Lemma py_eq_str (v : json) (s : string) :
  py_eq v (JStr s) = true <-> v = JStr s.
Proof.
  destruct v; simpl; split; intro H; try discriminate; try congruence.
  - apply String.eqb_eq in H. now subst.
  - inversion H; subst. apply String.eqb_refl.
Qed.

Lemma py_eq_str_false (v : json) (s : string) :
  py_eq v (JStr s) = false <-> v <> JStr s.
Proof.
  rewrite <- py_eq_str. destruct (py_eq v (JStr s)); split; congruence.
Qed.

(* ================================================================== *)
(** ** Prioritisation: scores, quadrants, order *)

Section PrioritizeFacts.










(** *** The sort *)










End PrioritizeFacts.

(* ================================================================== *)
(** ** The task store *)

Section StoreFacts.

Variable rt : runtime.

Lemma filter_raising_total (keep : json -> outcome bool) (f : json -> bool)
      (ts : list json) :
  Forall (fun t => keep t = Ok (f t)) ts ->
  filter_raising keep ts = Ok (filter f ts).
Proof.
  induction 1 as [|t ts Ht _ IH]; simpl; [reflexivity|].
  rewrite Ht, IH; simpl. now destruct (f t).
Qed.

Lemma filter_twice {A} (f g : A -> bool) (l : list A) :
  filter g (filter f l) = filter (fun x => f x && g x) l.
Proof.
  induction l as [|x l IH]; simpl; [reflexivity|].
  destruct (f x); simpl; [destruct (g x)|]; now rewrite IH.
Qed.

Lemma filter_all {A} (f : A -> bool) (l : list A) :
  (forall x, f x = true) -> filter f l = l.
Proof.
  intros H. induction l as [|x l IH]; simpl; [reflexivity|].
  now rewrite H, IH.
Qed.

(** *** [_load_tasks] *)

Lemma field_is_record (name s : string) (t : json) :
  is_record t ->
  field_is name (JStr s) t = Ok (field_equals name s t).
Proof.
  intros [d ->]. unfold field_is, field_equals; simpl. unfold dict_get_default.
  destruct (dict_get name d) as [[]|]; reflexivity.
Qed.

Lemma select_records (name s : string) (ts : list json) :
  Forall is_record ts ->
  select name (JStr s) (JArr ts) = Ok (JArr (filter (field_equals name s) ts)).
Proof.
  intros H. unfold select; simpl.
  erewrite filter_raising_total; [reflexivity|].
  eapply Forall_impl; [|exact H]. intros t Ht. now apply field_is_record.
Qed.

(** One filtering step of [_load_tasks], for a filter that is absent or a
    string. *)
Lemma filter_step (name : string) (wanted : option string) (params : dict)
      (ts : list json) (w : world) :
  Forall is_record ts ->
  dict_get name params = option_map JStr wanted ->
  (if truthy (dict_get_default name JNull params)
   then lift (select name (dict_get_default name JNull params) (JArr ts))
   else ret (JArr ts)) w
  = (Ok (JArr (filter (meets name wanted) ts)), w).
Proof.
  intros Hts Hp. unfold dict_get_default. rewrite Hp.
  destruct wanted as [s|]; simpl.
  - destruct (String.eqb_spec s "") as [->|Hs]; simpl.
    + now rewrite filter_all.
    + unfold lift. rewrite select_records by assumption.
      do 3 f_equal. apply filter_ext. intro t. unfold meets.
      destruct (String.eqb_spec s ""); [contradiction | reflexivity].
  - now rewrite filter_all.
Qed.

Lemma filter_records (f : json -> bool) (ts : list json) :
  Forall is_record ts -> Forall is_record (filter f ts).
Proof.
  intros H. apply Forall_forall. intros t Ht. apply filter_In in Ht.
  rewrite Forall_forall in H. now apply H.
Qed.

(** What [_load_tasks] answers on a stored collection of records. *)
Lemma load_selects (params : dict) (w : world) (doc : dict) (ts : list json)
      (status_filter priority_filter : option string) :
  tasks_file w = Holds (JObj doc) ->
  dict_get "tasks" doc = Some (JArr ts) ->
  Forall is_record ts ->
  dict_get "status" params = option_map JStr status_filter ->
  dict_get "priority" params = option_map JStr priority_filter ->
  _load_tasks params w
  = (Ok (load_response
           (filter (fun t => meets "status" status_filter t
                             && meets "priority" priority_filter t) ts)
           (dict_get_default "last_updated" (JStr "") doc)), w).
Proof.
  intros Hfile Htasks Hts Hs Hp.
  unfold _load_tasks, try_except, bind, read_json. rewrite Hfile.
  unfold lift at 1. simpl py_get. unfold dict_get_default at 1.
  rewrite Htasks.
  rewrite (filter_step "status" status_filter params ts w Hts Hs).
  rewrite (filter_step "priority" priority_filter params _ w
                       (filter_records _ _ Hts) Hp).
  rewrite filter_twice. reflexivity.
Qed.

(** C5 (as amended).  On a stored collection of records, [load] answers
    exactly the records that meet the status filter and the priority
    filter, each compared by string equality and both required; a filter
    that is absent or the empty string imposes no constraint; the answer is
    in stored order, with its count; when the tasks file is missing the
    answer is the empty sequence with count 0, not an error. *)
Theorem load_returns_matching_records :
  forall (params : dict) (w : world),
    (forall doc ts status_filter priority_filter,
        tasks_file w = Holds (JObj doc) ->
        dict_get "tasks" doc = Some (JArr ts) ->
        Forall is_record ts ->
        dict_get "status" params = option_map JStr status_filter ->
        dict_get "priority" params = option_map JStr priority_filter ->
        _load_tasks params w
        = (Ok (load_response
                 (filter (fun t => meets "status" status_filter t
                                   && meets "priority" priority_filter t) ts)
                 (dict_get_default "last_updated" (JStr "") doc)), w))
    /\ (tasks_file w = Missing ->
        _load_tasks params w
        = (Ok (JObj [("tasks", JArr []); ("count", JInt 0)]), w)).
Proof.
  intros params w. split.
  - intros doc ts sf pf. apply load_selects.
  - intros Hfile.
    unfold _load_tasks, try_except, bind, read_json. rewrite Hfile.
    reflexivity.
Qed.

Lemma load_witness :
  _load_tasks [("status", JStr "pending")] (store_of [pending_task])
  = (Ok (load_response [pending_task] (JStr "")), store_of [pending_task])
  /\ _load_tasks [("status", JStr "pending")]
                 (World Missing true fixture_clock 0)
     = (Ok (JObj [("tasks", JArr []); ("count", JInt 0)]),
        World Missing true fixture_clock 0).
Proof.
  split.
  - apply (proj1 (load_returns_matching_records
                    [("status", JStr "pending")] (store_of [pending_task]))
                 _ [pending_task] (Some "pending") None eq_refl eq_refl).
    + repeat constructor. eexists; reflexivity.
    + reflexivity.
    + reflexivity.
  - apply (proj2 (load_returns_matching_records
                    [("status", JStr "pending")]
                    (World Missing true fixture_clock 0))).
    reflexivity.
Defined.

(** C5, as first stated, fails: with the status filter supplied as the
    empty string, no stored record has that status, yet the pending record
    comes back. *)
Lemma load_empty_filter_counterexample :
  fst (_load_tasks [("status", JStr "")] (store_of [pending_task]))
  = Ok (load_response [pending_task] (JStr ""))
  /\ filter (field_equals "status" "") [pending_task] = [].
Proof. split; reflexivity. Qed.

(** *** [_delete_task] *)

Lemma filter_length_all {A} (f : A -> bool) (l : list A) :
  List.length (filter f l) = List.length l <-> Forall (fun x => f x = true) l.
Proof.
  induction l as [|x l IH]; simpl.
  - split; auto.
  - destruct (f x) eqn:E; simpl.
    + split.
      * intros H. constructor; auto. apply IH. lia.
      * intros H. inversion H; subst. f_equal. now apply IH.
    + split.
      * intros H. pose proof (filter_length_le f l). lia.
      * intros H. inversion H; congruence.
Qed.

Lemma has_string_id_record (t : json) : has_string_id t -> is_record t.
Proof. intros (d & s & -> & _). now exists d. Qed.

Lemma id_differs_string_id (sid : string) (t : json) :
  has_string_id t ->
  id_differs (JStr sid) t = Ok (negb (has_id sid t)).
Proof.
  intros (d & s & -> & Hid & _).
  unfold id_differs, has_id, field_equals, field, py_getitem.
  rewrite Hid. reflexivity.
Qed.

Lemma kept_after_delete (sid : string) (ts : list json) :
  Forall has_string_id ts ->
  filter_raising (id_differs (JStr sid)) ts
  = Ok (filter (fun t => negb (has_id sid t)) ts).
Proof.
  intros H. apply filter_raising_total.
  eapply Forall_impl; [|exact H]. intros t. apply id_differs_string_id.
Qed.

Lemma no_empty_id (ts : list json) :
  Forall has_string_id ts -> Forall (fun t => has_id "" t = false) ts.
Proof.
  intros H. eapply Forall_impl; [|exact H].
  intros t (d & s & -> & Hid & Hs). unfold has_id, field_equals, field.
  rewrite Hid. now apply String.eqb_neq.
Qed.

Lemma without_id_clean (sid : string) (ts : list json) :
  Forall (fun t => has_id sid t = false) (without_id sid ts).
Proof.
  apply Forall_forall. intros t Ht. apply filter_In in Ht.
  now apply negb_true_iff.
Qed.

Lemma persisted_tasks (t : datetime) (tasks : list json) (doc : dict) :
  dict_get "tasks" (persisted t tasks doc) = Some (JArr tasks).
Proof.
  unfold persisted. rewrite dict_get_set_other by discriminate.
  apply dict_get_set_same.
Qed.

(** C4.  On a stored collection whose records carry non-empty string
    identifiers: deleting an identifier no record carries answers an error
    and leaves the world as it was; deleting one that is present removes
    every record carrying it, keeps the others in order, persists the
    result, answers the number of records that remain, and any later
    [load] on the resulting world lists no record with that identifier. *)
Theorem delete_removes_every_record_with_id :
  forall (params : dict) (w : world) (doc : dict) (ts : list json) (sid : string),
    tasks_file w = Holds (JObj doc) ->
    dict_get "tasks" doc = Some (JArr ts) ->
    Forall has_string_id ts ->
    dict_get "task_id" params = Some (JStr sid) ->
    (Forall (fun t => has_id sid t = false) ts ->
     _delete_task rt params w
     = (Ok (if String.eqb sid "" then error_response "task_id is required"
            else not_found sid), w))
    /\ (Exists (fun t => has_id sid t = true) ts ->
        writable w = true ->
        let kept := without_id sid ts in
        let w' := World (Holds (JObj (persisted (clock w (ticks w)) kept doc)))
                        true (clock w) (S (ticks w)) in
        _delete_task rt params w = (Ok (delete_response sid (List.length kept)), w')
        /\ Forall (fun t => has_id sid t = false) kept
        /\ forall request status_filter priority_filter,
             dict_get "status" request = option_map JStr status_filter ->
             dict_get "priority" request = option_map JStr priority_filter ->
             exists out last,
               _load_tasks request w' = (Ok (load_response out last), w')
               /\ Forall (fun t => has_id sid t = false) out).
Proof.
  intros params w doc ts sid Hfile Htasks Hts Hid.
  assert (Hrun : forall (absent : bool),
             (if absent then Forall (fun t => has_id sid t = false) ts
              else Exists (fun t => has_id sid t = true) ts /\ writable w = true) ->
             _delete_task rt params w
             = if absent then
                 (Ok (if String.eqb sid "" then error_response "task_id is required"
                      else not_found sid), w)
               else
                 (Ok (delete_response sid (List.length (without_id sid ts))),
                  World (Holds (JObj (persisted (clock w (ticks w))
                                                (without_id sid ts) doc)))
                        true (clock w) (S (ticks w)))).
  { intros absent Hcase.
    unfold _delete_task, dict_get_default. rewrite Hid.
    change (truthy (JStr sid)) with (negb (String.eqb sid "")).
    destruct (String.eqb_spec sid "") as [->|Hne]; cbn [negb].
    - destruct absent; [reflexivity|]. destruct Hcase as [Hex _].
      apply Exists_exists in Hex. destruct Hex as (t & Ht & Htrue).
      pose proof (no_empty_id ts Hts) as Hno. rewrite Forall_forall in Hno.
      rewrite (Hno t Ht) in Htrue. discriminate.
    - unfold bind, try_load, try_except, read_json, bind, ret. rewrite Hfile.
      unfold lift. simpl py_get. unfold dict_get_default. rewrite Htasks.
      simpl py_len. simpl py_iter. cbv beta iota.
      rewrite (kept_after_delete sid ts Hts). fold (without_id sid ts).
      destruct absent.
      + assert (E : List.length (without_id sid ts) = List.length ts).
        { apply filter_length_all. eapply Forall_impl; [|exact Hcase].
          intros t Ht. simpl. now rewrite Ht. }
        rewrite E, Z.eqb_refl. reflexivity.
      + destruct Hcase as [Hex Hw].
        assert (E : List.length (without_id sid ts) <> List.length ts).
        { intros E. apply filter_length_all in E. rewrite Forall_forall in E.
          apply Exists_exists in Hex. destruct Hex as (t & Ht & Htrue).
          specialize (E t Ht). simpl in E. rewrite Htrue in E. discriminate. }
        destruct (Z.eqb_spec (Z.of_nat (List.length (without_id sid ts)))
                             (Z.of_nat (List.length ts))) as [E'|_];
          [apply Nat2Z.inj in E'; contradiction|].
        simpl py_setitem. unfold datetime_now, write_json. cbn [writable].
        rewrite Hw. unfold set_file, fmt. reflexivity. }
  split.
  - intros Habs. exact (Hrun true Habs).
  - intros Hex Hw kept w'. split; [exact (Hrun false (conj Hex Hw))|].
    split; [apply without_id_clean|].
    intros request sf pf Hs Hp.
    pose proof (load_selects request w' _ kept sf pf eq_refl
                             (persisted_tasks _ _ _)) as Hload.
    eexists _, _. split.
    + apply Hload; auto. apply filter_records.
      eapply Forall_impl; [|exact Hts]. apply has_string_id_record.
    + apply Forall_forall. intros t Ht. apply filter_In in Ht.
      destruct Ht as [Ht _]. revert t Ht. apply Forall_forall.
      apply without_id_clean.
Qed.

(** *** [_update_task] *)

Lemma overwrite_record (name : string) (params d : dict) :
  overwrite name params (JObj d) = Ok (JObj (overwritten name params d)).
Proof.
  unfold overwrite, overwritten. now destruct (dict_get name params).
Qed.

Lemma apply_fields_record (params d : dict) :
  apply_fields params (JObj d)
  = Ok (JObj (fold_left (fun acc name => overwritten name params acc) updatable d)).
Proof.
  unfold apply_fields. repeat (rewrite overwrite_record; cbn [obind]).
  reflexivity.
Qed.

Lemma dict_get_overwritten (k name : string) (params d : dict) :
  dict_get k (overwritten name params d)
  = if String.eqb k name && dict_mem name params
    then dict_get name params else dict_get k d.
Proof.
  unfold overwritten, dict_mem.
  destruct (dict_get name params) as [v|] eqn:E.
  - destruct (String.eqb_spec k name) as [->|Hne]; simpl.
    + apply dict_get_set_same.
    + now apply dict_get_set_other.
  - now rewrite andb_false_r.
Qed.

(** What the six assignments leave under each key. *)
Lemma dict_get_updated_fields (k : string) (params d : dict) :
  dict_get k (fold_left (fun acc name => overwritten name params acc) updatable d)
  = if is_updatable k && dict_mem k params
    then dict_get k params else dict_get k d.
Proof.
  unfold updatable, is_updatable; simpl. rewrite !dict_get_overwritten.
  repeat match goal with
         | |- context [String.eqb k ?n] =>
             destruct (String.eqb_spec k n) as [->|?]; simpl
         end;
    try reflexivity;
    repeat match goal with
           | |- context [dict_mem ?n params] => destruct (dict_mem n params); simpl
           end; try reflexivity; congruence.
Qed.

Lemma update_scan_absent (params : dict) (sid : string) (data : json)
      (rest seen : list json) (w : world) :
  Forall has_string_id rest ->
  Forall (fun t => has_id sid t = false) rest ->
  update_scan rt params (JStr sid) data seen rest w = (Ok (not_found sid), w).
Proof.
  intros Hids. revert seen.
  induction Hids as [|t rest (d & s & -> & Hid & _) _ IH]; intros seen Habs.
  - reflexivity.
  - inversion Habs as [|? ? Ht Hrest]; subst.
    simpl update_scan. unfold bind at 1. unfold lift at 1, py_getitem.
    rewrite Hid. change (py_eq (JStr s) (JStr sid)) with (String.eqb s sid).
    unfold has_id, field_equals, field in Ht. rewrite Hid in Ht. rewrite Ht.
    now apply IH.
Qed.

Lemma update_scan_present (params : dict) (sid : string) (doc d : dict)
      (before after seen : list json) (w : world) :
  Forall has_string_id before ->
  Forall (fun t => has_id sid t = false) before ->
  has_id sid (JObj d) = true ->
  writable w = true ->
  update_scan rt params (JStr sid) (JObj doc) seen (before ++ JObj d :: after) w
  = (Ok (success "Task updated successfully"
                 (JObj (updated_record params (clock w (ticks w)) d))),
     World (Holds (JObj (persisted
                           (clock w (S (ticks w)))
                           ((seen ++ before)
                              ++ JObj (updated_record params (clock w (ticks w)) d)
                              :: after)
                           doc)))
           true (clock w) (S (S (ticks w)))).
Proof.
  intros Hids. revert seen.
  induction Hids as [|t rest (d0 & s & -> & Hid & _) _ IH];
    intros seen Habs Hd Hw.
  - rewrite app_nil_r. simpl app. simpl update_scan.
    unfold has_id, field_equals, field in Hd.
    unfold bind at 1. unfold lift at 1, py_getitem.
    destruct (dict_get "id" d) as [[| | | |s| |]|] eqn:Eid; try discriminate.
    change (py_eq (JStr s) (JStr sid)) with (String.eqb s sid). rewrite Hd.
    unfold bind, lift. rewrite apply_fields_record.
    unfold datetime_now, write_json. simpl py_setitem. cbn [writable].
    rewrite Hw. reflexivity.
  - inversion Habs as [|? ? Ht Hrest]; subst.
    simpl app. simpl update_scan. unfold bind at 1. unfold lift at 1, py_getitem.
    rewrite Hid. change (py_eq (JStr s) (JStr sid)) with (String.eqb s sid).
    unfold has_id, field_equals, field in Ht. rewrite Hid in Ht. rewrite Ht.
    rewrite (IH (seen ++ [JObj d0])%list Hrest Hd Hw).
    replace ((seen ++ [JObj d0]) ++ rest)%list with (seen ++ JObj d0 :: rest)%list
      by (rewrite <- app_assoc; reflexivity).
    reflexivity.
Qed.

(** C1 (as amended).  On a stored collection whose records carry
    non-empty string identifiers: an [update] naming an identifier no
    record carries answers an error and leaves the world as it was.  One
    naming an identifier that is present rewrites the first record carrying
    it: each of title, description, priority, status, deadline and
    estimated_duration that the request supplies takes the supplied value;
    every other field except [updated_at] keeps its value (nothing is said
    here of a [tags] value the request supplies); [updated_at] becomes the
    clock reading taken by the update; the collection with that record
    replaced in place is persisted, and the rewritten record is returned. *)
Theorem update_overwrites_supplied_fields :
  forall (params : dict) (w : world) (doc : dict) (ts : list json) (sid : string),
    tasks_file w = Holds (JObj doc) ->
    dict_get "tasks" doc = Some (JArr ts) ->
    Forall has_string_id ts ->
    dict_get "task_id" params = Some (JStr sid) ->
    (Forall (fun t => has_id sid t = false) ts ->
     _update_task rt params w
     = (Ok (if String.eqb sid "" then error_response "task_id is required"
            else not_found sid), w))
    /\ (forall before d after,
          ts = (before ++ JObj d :: after)%list ->
          Forall (fun t => has_id sid t = false) before ->
          has_id sid (JObj d) = true ->
          writable w = true ->
          exists d',
            _update_task rt params w
            = (Ok (success "Task updated successfully" (JObj d')),
               World (Holds (JObj (persisted (clock w (S (ticks w)))
                                             (before ++ JObj d' :: after) doc)))
                     true (clock w) (S (S (ticks w))))
            /\ dict_get "updated_at" d' = Some (JStr (isoformat (clock w (ticks w))))
            /\ forall k,
                 k <> "updated_at" ->
                 (k = "tags" -> dict_mem "tags" params = false) ->
                 dict_get k d'
                 = if is_updatable k && dict_mem k params
                   then dict_get k params else dict_get k d).
Proof.
  intros params w doc ts sid Hfile Htasks Hts Hid.
  assert (Hhead : sid <> "" ->
                  _update_task rt params w
                  = update_scan rt params (JStr sid) (JObj doc) [] ts w).
  { intros Hne. unfold _update_task, dict_get_default. rewrite Hid.
    change (truthy (JStr sid)) with (negb (String.eqb sid "")).
    destruct (String.eqb_spec sid ""); [contradiction|]. cbn [negb].
    unfold bind, try_load, try_except, read_json, bind, ret. rewrite Hfile.
    unfold lift. simpl py_get. unfold dict_get_default. now rewrite Htasks. }
  split.
  - intros Habs. destruct (String.eqb_spec sid "") as [->|Hne].
    + unfold _update_task, dict_get_default. now rewrite Hid.
    + rewrite (Hhead Hne). now apply update_scan_absent.
  - intros before d after -> Hbefore Hd Hw.
    assert (Hne : sid <> "").
    { intros ->. apply Forall_app in Hts. destruct Hts as [_ Hts].
      inversion Hts as [|? ? Hd' _]; subst.
      pose proof (no_empty_id [JObj d] (Forall_cons _ Hd' (Forall_nil _))) as Hno.
      inversion Hno; subst. congruence. }
    exists (updated_record params (clock w (ticks w)) d).
    split; [|split].
    + rewrite (Hhead Hne). apply Forall_app in Hts. destruct Hts as [Hb _].
      now rewrite (update_scan_present params sid doc d before after [] w).
    + apply dict_get_set_same.
    + intros k Hk _. unfold updated_record.
      rewrite dict_get_set_other by assumption.
      apply dict_get_updated_fields.
Qed.

(** *** [_generate_report] *)













(** *** [_export_tasks] *)

Lemma csv_row_exportable (t : json) :
  exportable t -> csv_row rt t = Ok (csv_line rt t).
Proof.
  intros (d & -> & Hi & Ht & Hp & Hs).
  unfold dict_mem in Hi, Ht, Hp, Hs.
  unfold csv_row, csv_line, cell, field, py_getitem, py_get, dict_get_default.
  cbn [map join].
  destruct (dict_get "id" d); [|discriminate].
  destruct (dict_get "title" d); [|discriminate].
  destruct (dict_get "priority" d); [|discriminate].
  destruct (dict_get "status" d); [|discriminate].
  cbn [obind]. destruct (dict_get "deadline" d); reflexivity.
Qed.

Lemma csv_rows_exportable (ts : list json) :
  Forall exportable ts -> csv_rows rt ts = Ok (map (csv_line rt) ts).
Proof.
  induction 1 as [|t ts Ht _ IH]; simpl; [reflexivity|].
  now rewrite (csv_row_exportable t Ht), IH.
Qed.

(** C8.  On a stored collection: an [export] whose format is csv answers
    the header row [ID,Title,Priority,Status,Deadline] followed by one row
    per record, in stored order, each row the record's id, title, priority,
    status and deadline joined by commas, a string value standing in its
    row exactly as it is stored; an [export] with any other format, or
    none, answers the stored list of records itself. *)
Theorem export_renders_collection :
  forall (params : dict) (w : world) (doc : dict) (ts : list json),
    tasks_file w = Holds (JObj doc) ->
    dict_get "tasks" doc = Some (JArr ts) ->
    (dict_get "format" params = Some (JStr "csv") ->
     Forall exportable ts ->
     _export_tasks rt params w = (Ok (csv_export rt ts), w)
     /\ forall t name v,
          In t ts -> field name t = Some (JStr v) -> cell rt name t = v)
    /\ (dict_get_default "format" (JStr "json") params <> JStr "csv" ->
        _export_tasks rt params w = (Ok (json_export ts), w)).
Proof.
  intros params w doc ts Hfile Htasks. split.
  - intros Hfmt Hts. split.
    + unfold _export_tasks, dict_get_default. rewrite Hfmt.
      unfold bind, try_load, try_except, read_json, bind, ret. rewrite Hfile.
      unfold lift. simpl py_get. unfold dict_get_default. rewrite Htasks.
      change (py_eq (JStr "csv") (JStr "csv")) with true.
      change (py_iter (JArr ts)) with (Ok ts). cbv beta iota.
      now rewrite (csv_rows_exportable ts Hts).
    + intros t name v _ Hv. unfold cell. now rewrite Hv.
  - intros Hfmt. apply py_eq_str_false in Hfmt.
    unfold _export_tasks. rewrite Hfmt.
    unfold bind, try_load, try_except, read_json, bind, ret. rewrite Hfile.
    unfold lift. simpl py_get. unfold dict_get_default. now rewrite Htasks.
Qed.

(** *** [_save_task] *)

(** The document a save starts from: the stored one, or the blank one when
    the read fails. *)
Lemma save_appends (params : dict) (w : world) (doc : dict) (ts : list json) :
  (tasks_file w = Holds (JObj doc)
   \/ (doc = blank_doc /\ forall j, tasks_file w <> Holds j)) ->
  dict_get "tasks" doc = Some (JArr ts) ->
  writable w = true ->
  _save_task params w
  = (Ok (success "Task saved successfully"
                 (saved_record params w (List.length ts))),
     world_after_save params w doc ts).
Proof.
  intros Hfile Htasks Hw.
  assert (Hread : try_except read_json
                    (fun _ => Some (ret (JObj [("tasks", JArr []);
                                               ("last_updated", JStr "")]))) w
                  = (Ok (JObj doc), w)).
  { unfold try_except, read_json, ret.
    destruct Hfile as [->|[-> Hno]]; [reflexivity|].
    destruct (tasks_file w) as [| | |j]; try reflexivity.
    now destruct (Hno j). }
  unfold _save_task. unfold bind at 1. rewrite Hread.
  unfold bind, lift. simpl py_get. unfold dict_get_default. rewrite Htasks.
  simpl py_len. cbv beta iota. unfold datetime_now. cbn [clock ticks].
  simpl py_append. simpl py_setitem. unfold write_json. cbn [writable].
  rewrite Hw. reflexivity.
Qed.


(** *** [_run] *)

Lemma unrecognised_action (action : json) :
  recognised action = false ->
  py_eq action (JStr "load") = false /\ py_eq action (JStr "save") = false
  /\ py_eq action (JStr "update") = false /\ py_eq action (JStr "delete") = false
  /\ py_eq action (JStr "report") = false /\ py_eq action (JStr "export") = false.
Proof.
  unfold recognised, actions. cbn [existsb]. rewrite !orb_false_iff. tauto.
Qed.

(** C7.  [_run] answers every input string with a response and never
    raises.  When [json.loads] rejects the input as malformed the answer
    is [{"error": "Invalid JSON input"}]; when the parsed request is a dict
    whose action is none of load, save, update, delete, report and export
    the answer is [{"error": "Invalid action"}]; when the parsed request is
    no dict at all, or the parser fails in another way, the answer is an
    error carrying the fault's message.  None of these touches the world. *)
Theorem run_always_answers :
  forall (input_str : string) (w : world),
    (exists resp w', _run rt input_str w = (Ok resp, w'))
    /\ (forall e,
          json_loads rt input_str = Raise e ->
          _run rt input_str w
          = (Ok (error_response
                   (match kind e with
                    | JSONDecodeError => "Invalid JSON input"
                    | _ => message e
                    end)), w))
    /\ (forall p,
          json_loads rt input_str = Ok (JObj p) ->
          recognised (dict_get_default "action" (JStr "") p) = false ->
          _run rt input_str w = (Ok (error_response "Invalid action"), w))
    /\ (forall j,
          json_loads rt input_str = Ok j ->
          (forall p, j <> JObj p) ->
          _run rt input_str w
          = (Ok (error_response (message (attribute_error j "get"))), w)).
Proof.
  intros input_str w. repeat split.
  - unfold _run, try_except.
    destruct (bind (lift (json_loads rt input_str)) (fun params => dispatch rt params) w)
      as [[resp|e] w'].
    + now exists resp, w'.
    + destruct (kind e); eexists _, _; reflexivity.
  - intros e He. unfold _run, try_except, bind, lift. rewrite He.
    now destruct (kind e).
  - intros p Hp Hact. apply unrecognised_action in Hact.
    destruct Hact as (H1 & H2 & H3 & H4 & H5 & H6).
    unfold _run, try_except, bind, lift. rewrite Hp. unfold dispatch.
    now rewrite H1, H2, H3, H4, H5, H6.
  - intros j Hj Hnot. unfold _run, try_except, bind, lift. rewrite Hj.
    destruct j; try reflexivity. now destruct (Hnot fields).
Qed.

End StoreFacts.

(* ================================================================== *)
(** ** Conflict detection *)

(** C9.  [check_conflict] gives the same report when the two events are
    swapped; it reports a conflict exactly when some instant lies strictly
    inside both intervals; when it does, the overlap reaches from the later
    start to the earlier end; when it does not, the overlap is zero, as it
    is for intervals that are disjoint or touch at an endpoint. *)
Theorem check_conflict_symmetric_and_sized :
  forall (event1_start event1_end event2_start event2_end : Z),
    let r := check_conflict event1_start event1_end event2_start event2_end in
    r = check_conflict event2_start event2_end event1_start event1_end
    /\ (has_conflict r = true <->
        exists t : Q,
          (inject_Z event1_start < t /\ t < inject_Z event1_end)%Q
          /\ (inject_Z event2_start < t /\ t < inject_Z event2_end)%Q)
    /\ (has_conflict r = true ->
        (Z.max event1_start event2_start + overlap_minutes r
         = Z.min event1_end event2_end)%Z)
    /\ (has_conflict r = false -> overlap_minutes r = 0%Z)
    /\ ((event1_end <= event2_start)%Z \/ (event2_end <= event1_start)%Z ->
        has_conflict r = false /\ overlap_minutes r = 0%Z).
Proof.
  intros s1 e1 s2 e2 r. subst r. unfold check_conflict.
  cbn [has_conflict overlap_minutes]. repeat split.
  - f_equal; [f_equal|]; lia.
  - intros H. apply Z.ltb_lt in H.
    exists ((inject_Z (Z.max s1 s2) + inject_Z (Z.min e1 e2)) * (1 # 2))%Q.
    assert (Hlt : (inject_Z (Z.max s1 s2) < inject_Z (Z.min e1 e2))%Q)
      by now rewrite <- Zlt_Qlt.
    assert (H1 : (inject_Z s1 <= inject_Z (Z.max s1 s2))%Q)
      by (rewrite <- Zle_Qle; lia).
    assert (H2 : (inject_Z s2 <= inject_Z (Z.max s1 s2))%Q)
      by (rewrite <- Zle_Qle; lia).
    assert (H3 : (inject_Z (Z.min e1 e2) <= inject_Z e1)%Q)
      by (rewrite <- Zle_Qle; lia).
    assert (H4 : (inject_Z (Z.min e1 e2) <= inject_Z e2)%Q)
      by (rewrite <- Zle_Qle; lia).
    split; split; lra.
  - intros (t & [A B] & [C D]). apply Z.ltb_lt.
    assert (s1 < e1)%Z by (rewrite Zlt_Qlt; lra).
    assert (s1 < e2)%Z by (rewrite Zlt_Qlt; lra).
    assert (s2 < e1)%Z by (rewrite Zlt_Qlt; lra).
    assert (s2 < e2)%Z by (rewrite Zlt_Qlt; lra).
    lia.
  - intros H. apply Z.ltb_lt in H. lia.
  - intros H. apply Z.ltb_ge in H. lia.
  - apply Z.ltb_ge. lia.
  - lia.
Qed.

(* ================================================================== *)
(** ** Closed examples *)

Lemma pending_task_has_id : has_string_id pending_task.
Proof. eexists _, _. repeat split. discriminate. Qed.

(** C1, as first stated, fails.  A task is saved and then updated while the
    clock reads the same instant; the request supplies a title and tags.
    The title is overwritten, the supplied tags are not written, and
    [updated_at] is what it was, not later. *)
Lemma update_counterexample :
  exists saved updated w1 w2,
    _save_task [("title", JStr "Draft")] frozen_empty_store
    = (Ok (success "Task saved successfully" saved), w1)
    /\ _update_task demo_runtime update_request w1
       = (Ok (success "Task updated successfully" updated), w2)
    /\ field "title" updated = Some (JStr "Final")
    /\ field "tags" updated = Some (JArr [])
    /\ field "updated_at" updated = field "updated_at" saved.
Proof.
  eexists _, _, _, _.
  split; [lazy; reflexivity|]. split; [lazy; reflexivity|]. repeat split.
Qed.

Lemma update_witness :
  exists d',
    fst (_update_task demo_runtime update_request (store_of [pending_task]))
    = Ok (success "Task updated successfully" (JObj d'))
    /\ dict_get "title" d' = Some (JStr "Final")
    /\ dict_get "status" d' = Some (JStr "pending").
Proof.
  destruct (proj2 (update_overwrites_supplied_fields
                     demo_runtime update_request (store_of [pending_task])
                     _ [pending_task] "task_1_20240115103000"
                     eq_refl eq_refl
                     (Forall_cons _ pending_task_has_id (Forall_nil _))
                     eq_refl)
                  [] _ [] eq_refl (Forall_nil _) eq_refl eq_refl)
    as (d' & Hrun & _ & Hfields).
  exists d'. split; [now rewrite Hrun|].
  split; rewrite Hfields; try reflexivity; discriminate.
Defined.



Lemma delete_witness :
  fst (_delete_task demo_runtime [("task_id", JStr "task_1_20240115103000")]
                    (store_of [pending_task; late_task]))
  = Ok (delete_response "task_1_20240115103000" 1).
Proof.
  assert (Hids : Forall has_string_id [pending_task; late_task]).
  { repeat constructor; eexists _, _;
      (repeat split; discriminate). }
  destruct (proj2 (delete_removes_every_record_with_id
                     demo_runtime [("task_id", JStr "task_1_20240115103000")]
                     (store_of [pending_task; late_task])
                     _ [pending_task; late_task] "task_1_20240115103000"
                     eq_refl eq_refl Hids eq_refl))
    as (Hrun & _).
  - constructor. reflexivity.
  - reflexivity.
  - now rewrite Hrun.
Defined.

Lemma export_witness :
  fst (_export_tasks demo_runtime [("format", JStr "csv")] (store_of [late_task]))
  = Ok (JObj [("format", JStr "csv");
              ("data",
               JStr ("ID,Title,Priority,Status,Deadline" ++ newline
                     ++ "task_3_20240115103000,Call, then write,high,pending,2024-01-10T09:00:00"));
              ("count", JInt 1)]).
Proof.
  destruct (proj1 (export_renders_collection
                     demo_runtime [("format", JStr "csv")] (store_of [late_task])
                     _ [late_task] eq_refl eq_refl))
    as (Hrun & _).
  - reflexivity.
  - repeat constructor. eexists. repeat split.
  - now rewrite Hrun.
Defined.


Lemma run_witness :
  _run demo_runtime "archive everything" (store_of [pending_task])
  = (Ok (error_response "Invalid action"), store_of [pending_task]).
Proof.
  apply (proj1 (proj2 (proj2 (run_always_answers
                                demo_runtime "archive everything"
                                (store_of [pending_task]))))
               [("action", JStr "archive")] eq_refl eq_refl).
Defined.

(** C6: the identifier [_save_task] assigns is not always fresh.  Two
    tasks are saved, the first is deleted, a third is saved, all within one
    second: the third gets the identifier of the second, and the store
    ends with two records under one identifier. *)
Theorem save_reuses_identifier :
  exists (second third : json) (doc : dict),
    tasks_file (snd (save_save_delete_save demo_runtime (store_of [])))
    = Holds (JObj doc)
    /\ dict_get "tasks" doc = Some (JArr [second; third])
    /\ field "title" second = Some (JStr "B")
    /\ field "title" third = Some (JStr "C")
    /\ field "id" second = Some (JStr "task_2_20240115103000")
    /\ field "id" third = Some (JStr "task_2_20240115103000").
Proof.
  eexists _, _, _. split; [vm_compute; reflexivity|]. repeat split.
Qed.

(* ================================================================== *)
(** ** Further properties of the task store *)

Section StoreBehaviour.

Variable rt : runtime.

(** *** Start-up *)

(** X1.  [_ensure_data_file] leaves a file that exists exactly as it is,
    readable or not; where the file is missing and the location is
    writable it creates an empty collection stamped with the clock reading,
    on which a [load] then answers the empty sequence; where the file is
    missing and nothing can be written it raises and changes nothing. *)
Theorem ensure_data_file_creates_only_when_missing :
  forall (w : world),
    (tasks_file w <> Missing -> _ensure_data_file w = (Ok tt, w))
    /\ (tasks_file w = Missing ->
        writable w = true ->
        let created :=
          World (Holds (JObj [("tasks", JArr []);
                              ("last_updated", JStr (isoformat (clock w (ticks w))))]))
                true (clock w) (S (ticks w)) in
        _ensure_data_file w = (Ok tt, created)
        /\ forall request,
             dict_get "status" request = None ->
             dict_get "priority" request = None ->
             _load_tasks request created
             = (Ok (load_response [] (JStr (isoformat (clock w (ticks w))))),
                created))
    /\ (tasks_file w = Missing ->
        writable w = false ->
        exists e, _ensure_data_file w = (Raise e, w) /\ kind e = OSError).
Proof.
  intros w. split; [|split].
  - intros H. unfold _ensure_data_file, bind, path_exists.
    destruct (tasks_file w); [contradiction| | |]; reflexivity.
  - intros Hm Hw created. split.
    + unfold _ensure_data_file, bind, path_exists, open_for_writing,
        datetime_now, write_json.
      rewrite Hm, Hw. cbn [writable]. rewrite Hw. unfold set_file.
      cbn [writable clock ticks]. rewrite ?Hw. reflexivity.
    + intros request Hs Hp.
      apply (load_selects request created _ [] None None eq_refl eq_refl);
        auto.
  - intros Hm Hw. eexists. split.
    + unfold _ensure_data_file, bind, path_exists, open_for_writing.
      rewrite Hm, Hw. reflexivity.
    + reflexivity.
Qed.

(** *** Save, then load *)

(** X2.  A [save] on a stored collection followed by an unfiltered [load]
    lists the records stored before, in their order, and then the record
    the save returned; the count is one more than before. *)
Theorem save_then_load_lists_new_task_last :
  forall (params request : dict) (w : world) (doc : dict) (ts : list json),
    tasks_file w = Holds (JObj doc) ->
    dict_get "tasks" doc = Some (JArr ts) ->
    Forall is_record ts ->
    writable w = true ->
    dict_get "status" request = None ->
    dict_get "priority" request = None ->
    exists task w',
      _save_task params w = (Ok (success "Task saved successfully" task), w')
      /\ _load_tasks request w'
         = (Ok (JObj [("tasks", JArr (ts ++ [task]));
                      ("count", JInt (Z.of_nat (List.length ts) + 1));
                      ("last_updated",
                       JStr (isoformat (clock w (S (S (S (ticks w)))))))]),
            w').
Proof.
  intros params request w doc ts Hfile Htasks Hts Hw Hs Hp.
  exists (saved_record params w (List.length ts)),
         (world_after_save params w doc ts).
  split.
  - apply save_appends; auto.
  - pose proof (load_selects request (world_after_save params w doc ts)
                             _ (ts ++ [saved_record params w (List.length ts)])
                             None None eq_refl (persisted_tasks _ _ _)) as H.
    rewrite H; auto.
    + rewrite filter_all by reflexivity. unfold load_response.
      rewrite length_app. simpl List.length. rewrite Nat2Z.inj_add.
      unfold persisted, dict_get_default. rewrite dict_get_set_same.
      reflexivity.
    + apply Forall_app. split; [assumption|].
      constructor; [|constructor]. eexists. reflexivity.
Qed.

(** *** Argument and storage checks *)

(** X3.  When the tasks file is missing, unreadable or not JSON, [report]
    and [export] answer "No tasks file found" and change nothing.
    [update] and [delete] first check the request: with a [task_id] that
    is missing or falsy (null, empty string, zero, false, empty list or
    dict) they answer "task_id is required" without looking at the file;
    given a task id they too answer "No tasks file found". *)
Theorem operations_report_unreadable_file :
  forall (params : dict) (w : world),
    (forall doc, tasks_file w <> Holds doc) ->
    _generate_report rt params w = (Ok (error_response "No tasks file found"), w)
    /\ _export_tasks rt params w = (Ok (error_response "No tasks file found"), w)
    /\ (truthy (dict_get_default "task_id" JNull params) = true ->
        _update_task rt params w = (Ok (error_response "No tasks file found"), w)
        /\ _delete_task rt params w
           = (Ok (error_response "No tasks file found"), w))
    /\ (truthy (dict_get_default "task_id" JNull params) = false ->
        _update_task rt params w = (Ok (error_response "task_id is required"), w)
        /\ _delete_task rt params w
           = (Ok (error_response "task_id is required"), w)).
Proof.
  intros params w Hno.
  assert (Hload : try_load w = (Ok None, w)).
  { unfold try_load, try_except, bind, read_json, ret.
    destruct (tasks_file w) as [| | |doc]; try reflexivity.
    now destruct (Hno doc). }
  repeat split.
  - unfold _generate_report, bind. now rewrite Hload.
  - unfold _export_tasks, bind. now rewrite Hload.
  - unfold _update_task. rewrite H. cbn [negb]. unfold bind. now rewrite Hload.
  - unfold _delete_task. rewrite H. cbn [negb]. unfold bind. now rewrite Hload.
  - unfold _update_task. now rewrite H.
  - unfold _delete_task. now rewrite H.
Qed.

End StoreBehaviour.

(* ================================================================== *)
(** ** What leaves the store alone *)

Section Frames.

Variable guard : world -> Prop.
Hypothesis guard_same : forall w w', same_store w w' -> guard w -> guard w'.

Lemma same_store_refl (w : world) : same_store w w.
Proof. now repeat split. Qed.

Lemma same_store_trans (w1 w2 w3 : world) :
  same_store w1 w2 -> same_store w2 w3 -> same_store w1 w3.
Proof.
  intros (A & B & C) (A' & B' & C'). repeat split; congruence.
Qed.

Lemma und_ret {A} (a : A) : undisturbed guard (ret a).
Proof. intros w _. apply same_store_refl. Qed.

Lemma und_raise {A} (e : exn) : undisturbed guard (@raise A e).
Proof. intros w _. apply same_store_refl. Qed.

Lemma und_lift {A} (o : outcome A) : undisturbed guard (lift o).
Proof. intros w _. apply same_store_refl. Qed.

Lemma und_now : undisturbed guard datetime_now.
Proof. intros w _. now repeat split. Qed.

Lemma und_read : undisturbed guard read_json.
Proof.
  intros w _. unfold read_json.
  destruct (tasks_file w); apply same_store_refl.
Qed.

Lemma und_bind {A B} (m : M A) (k : A -> M B) :
  undisturbed guard m -> (forall a, undisturbed guard (k a)) ->
  undisturbed guard (bind m k).
Proof.
  intros Hm Hk w Hw. unfold bind. specialize (Hm w Hw).
  destruct (m w) as [[a|e] w1]; simpl in *; [|assumption].
  eapply same_store_trans; [exact Hm|]. apply Hk. eapply guard_same; eauto.
Qed.

Lemma und_try {A} (body : M A) (handler : exn -> option (M A)) :
  undisturbed guard body ->
  (forall e h, handler e = Some h -> undisturbed guard h) ->
  undisturbed guard (try_except body handler).
Proof.
  intros Hb Hh w Hw. unfold try_except. specialize (Hb w Hw).
  destruct (body w) as [[a|e] w1]; simpl in *; [assumption|].
  destruct (handler e) as [h|] eqn:E; simpl; [|assumption].
  eapply same_store_trans; [exact Hb|]. eapply Hh; eauto.
Qed.

Lemma und_try_load : undisturbed guard try_load.
Proof.
  unfold try_load. apply und_try.
  - apply und_bind; [apply und_read | intros; apply und_ret].
  - intros e h [= <-]. apply und_ret.
Qed.

End Frames.

Ltac quiet G GS :=
  repeat first
    [ apply (und_ret G) | apply (und_lift G) | apply (und_raise G)
    | apply (und_now G) | apply (und_read G) | apply (und_try_load G GS)
    | apply (und_bind G GS); [|intros]
    | apply (und_try G GS); [|intros ? ? ?]
    | progress cbv zeta
    | match goal with
      | |- undisturbed _ (if ?b then _ else _) => destruct b
      | |- undisturbed _ (match ?x with _ => _ end) => destruct x
      | H : (match kind ?e with _ => _ end) = Some _ |- _ =>
          destruct (kind e); inversion H; subst; clear H
      | H : Some _ = Some _ |- _ => inversion H; subst; clear H
      end ].

Section QuietOperations.

Variable rt : runtime.
Variable guard : world -> Prop.
Hypothesis guard_same : forall w w', same_store w w' -> guard w -> guard w'.

Lemma und_load (params : dict) : undisturbed guard (_load_tasks params).
Proof. unfold _load_tasks. quiet guard guard_same. Qed.

Lemma und_report (params : dict) : undisturbed guard (_generate_report rt params).
Proof. unfold _generate_report. quiet guard guard_same. Qed.

Lemma und_export (params : dict) : undisturbed guard (_export_tasks rt params).
Proof. unfold _export_tasks. quiet guard guard_same. Qed.

End QuietOperations.

Section ReadOnlyStore.

Variable rt : runtime.

Lemma read_only_same (w w' : world) :
  same_store w w' -> read_only_world w -> read_only_world w'.
Proof. unfold read_only_world. intros (_ & B & _) H. congruence. Qed.

Lemma und_write (data : json) : undisturbed read_only_world (write_json data).
Proof.
  intros w Hw. unfold write_json. unfold read_only_world in Hw. rewrite Hw.
  apply same_store_refl.
Qed.

Lemma und_save (params : dict) : undisturbed read_only_world (_save_task params).
Proof.
  unfold _save_task.
  quiet read_only_world read_only_same; apply und_write.
Qed.

Lemma und_update_scan (params : dict) (task_id data : json) (rest seen : list json) :
  undisturbed read_only_world (update_scan rt params task_id data seen rest).
Proof.
  revert seen. induction rest as [|task rest IH]; intros seen; simpl update_scan.
  - apply und_ret.
  - apply (und_bind _ read_only_same); [apply und_lift|]. intros id.
    destruct (py_eq id task_id); [|apply IH].
    quiet read_only_world read_only_same; apply und_write.
Qed.

Lemma und_update (params : dict) : undisturbed read_only_world (_update_task rt params).
Proof.
  unfold _update_task.
  quiet read_only_world read_only_same; apply und_update_scan.
Qed.

Lemma und_delete (params : dict) : undisturbed read_only_world (_delete_task rt params).
Proof.
  unfold _delete_task.
  quiet read_only_world read_only_same; apply und_write.
Qed.

Lemma und_run (input_str : string) : undisturbed read_only_world (_run rt input_str).
Proof.
  unfold _run. apply (und_try _ read_only_same).
  - apply (und_bind _ read_only_same); [apply und_lift|]. intros params.
    unfold dispatch. destruct params; try apply und_raise.
    repeat match goal with
           | |- undisturbed _ (if ?b then _ else _) => destruct b
           end;
      first [ apply und_load | apply und_save | apply und_update
            | apply und_delete | apply und_report | apply und_export
            | apply und_ret ];
      apply read_only_same.
  - intros e h H. destruct (kind e); inversion H; subst; apply und_ret.
Qed.

End ReadOnlyStore.

Section StoreFrames.

Variable rt : runtime.

Lemma load_keeps_world (params : dict) (w : world) :
  snd (_load_tasks params w) = w.
Proof.
  unfold _load_tasks, try_except, bind, read_json, lift, ret.
  destruct (tasks_file w); cbn [kind]; try reflexivity.
  destruct (py_get doc "tasks" (JArr [])) as [tasks|e];
    [|destruct (kind e); reflexivity].
  repeat match goal with
         | |- context [truthy ?j] => destruct (truthy j)
         end;
    cbv beta iota;
    repeat match goal with
           | |- context [select ?f ?v ?t] => destruct (select f v t); cbv beta iota
           | |- context [py_len ?t] => destruct (py_len t); cbv beta iota
           | |- context [py_get ?d ?k ?v] => destruct (py_get d k v); cbv beta iota
           | |- context [kind ?e] => destruct (kind e); cbv beta iota
           end; reflexivity.
Qed.

Lemma load_answers (params : dict) (w : world) :
  exists resp, fst (_load_tasks params w) = Ok resp.
Proof.
  unfold _load_tasks, try_except.
  destruct (bind read_json _ w) as [[resp|e] w'].
  - now exists resp.
  - destruct (kind e); eexists; reflexivity.
Qed.

(** X4.  The reading operations never touch the store.  [load] answers
    every request in every world, whatever the file holds, without raising
    and without changing the world at all; [report] and [export] leave the
    file, the permissions and the clock as they were, also when they
    raise. *)
Theorem reading_operations_leave_store :
  forall (params : dict) (w : world),
    (exists resp, _load_tasks params w = (Ok resp, w))
    /\ same_store w (snd (_generate_report rt params w))
    /\ same_store w (snd (_export_tasks rt params w)).
Proof.
  intros params w. split; [|split].
  - destruct (load_answers params w) as [resp H]. exists resp.
    rewrite (surjective_pairing (_load_tasks params w)).
    now rewrite H, load_keeps_world.
  - apply (und_report rt any_world); [intros; exact I | exact I].
  - apply (und_export rt any_world); [intros; exact I | exact I].
Qed.

Lemma save_needs_write (params : dict) (w : world) :
  writable w = false -> exists e w', _save_task params w = (Raise e, w').
Proof.
  intros Hw.
  unfold _save_task, bind, try_except, read_json, lift, ret, datetime_now,
    write_json.
  destruct (tasks_file w) as [| | |doc]; cbn [writable];
    try (rewrite Hw; eexists _, _; reflexivity).
  destruct (py_get doc "tasks" (JArr [])) as [tasks|e]; [|eexists _, _; reflexivity].
  destruct (py_len tasks) as [n|e]; [|eexists _, _; reflexivity].
  cbv zeta.
  destruct (py_append tasks _) as [tasks'|e]; [|eexists _, _; reflexivity].
  destruct (py_setitem doc "tasks" tasks') as [d1|e]; [|eexists _, _; reflexivity].
  destruct (py_setitem d1 "last_updated" _) as [d2|e]; [|eexists _, _; reflexivity].
  cbn [writable]. rewrite Hw. eexists _, _; reflexivity.
Qed.

(** X5.  When the tasks file cannot be written, no request to [_run]
    changes it: whatever the input and whatever the file holds, the file,
    the permissions and the clock are afterwards as before; and a [save]
    request is answered with an error. *)
Theorem unwritable_store_is_never_changed :
  forall (input_str : string) (w : world),
    writable w = false ->
    same_store w (snd (_run rt input_str w))
    /\ (forall p,
          json_loads rt input_str = Ok (JObj p) ->
          dict_get "action" p = Some (JStr "save") ->
          exists msg, fst (_run rt input_str w) = Ok (error_response msg)).
Proof.
  intros input_str w Hw. split.
  - now apply und_run.
  - intros p Hp Hact.
    destruct (save_needs_write p w Hw) as (e & w' & Hsave).
    unfold _run, try_except, bind, lift. rewrite Hp. unfold dispatch.
    unfold dict_get_default. rewrite Hact.
    change (py_eq (JStr "save") (JStr "load")) with false.
    change (py_eq (JStr "save") (JStr "save")) with true.
    cbv iota. rewrite Hsave. destruct (kind e); eexists; reflexivity.
Qed.

End StoreFrames.

(* ================================================================== *)
(** ** Invariants of the store *)

Section StoreInvariants.

Variable rt : runtime.

Lemma same_identity_refl (ts : list json) :
  Forall has_string_id ts -> Forall2 same_identity ts ts.
Proof.
  induction 1; constructor; auto. now repeat split.
Qed.

Lemma same_identity_ids (ts ts' : list json) :
  Forall2 same_identity ts ts' ->
  Forall has_string_id ts'
  /\ map (field "id") ts' = map (field "id") ts
  /\ map (field "created_at") ts' = map (field "created_at") ts.
Proof.
  induction 1 as [|a b ts ts' (Hb & Hi & Hc) _ (IH1 & IH2 & IH3)]; simpl.
  - repeat split; constructor.
  - repeat split; [now constructor | congruence | congruence].
Qed.

Lemma updated_record_identity (params : dict) (t : datetime) (d : dict) :
  has_string_id (JObj d) ->
  same_identity (JObj d) (JObj (updated_record params t d)).
Proof.
  intros (d0 & s & E & Hid & Hs). inversion E; subst d0.
  assert (Hkeep : forall k, k = "id" \/ k = "created_at" ->
                            dict_get k (updated_record params t d) = dict_get k d).
  { intros k Hk. unfold updated_record.
    rewrite dict_get_set_other by (destruct Hk; subst; discriminate).
    rewrite dict_get_updated_fields.
    destruct Hk; subst; reflexivity. }
  repeat split.
  - exists (updated_record params t d), s. repeat split; auto.
    rewrite Hkeep; auto.
  - simpl. apply Hkeep; auto.
  - simpl. apply Hkeep; auto.
Qed.

(** Where the [for] loop of [_update_task] leaves the file: as it was, or
    holding the same records with one of them rewritten. *)
Lemma update_scan_identity (params : dict) (task_id : json) (doc : dict)
      (rest : list json) :
  Forall has_string_id rest ->
  forall (seen : list json) (w : world) (r : outcome json * world),
    r = update_scan rt params task_id (JObj doc) seen rest w ->
    tasks_file (snd r) = tasks_file w
    \/ exists t rest',
        tasks_file (snd r) = Holds (JObj (persisted t (seen ++ rest') doc))
        /\ Forall2 same_identity rest rest'.
Proof.
  induction 1 as [|task rest Htask Hrest IH]; intros seen w r Hr.
  - left. now subst r.
  - pose proof Htask as (d & s & -> & Hid & Hs).
    simpl update_scan in Hr. unfold bind at 1 in Hr.
    unfold lift at 1, py_getitem in Hr. rewrite Hid in Hr.
    destruct (py_eq (JStr s) task_id).
    + unfold bind, lift in Hr. rewrite apply_fields_record in Hr.
      unfold datetime_now, write_json in Hr. simpl py_setitem in Hr.
      cbn [writable] in Hr.
      destruct (writable w); subst r; [|now left].
      right. exists (clock w (S (ticks w))),
               (JObj (updated_record params (clock w (ticks w)) d) :: rest).
      split; [reflexivity|].
      constructor; [now apply updated_record_identity
                   | now apply same_identity_refl].
    + destruct (IH (seen ++ [JObj d])%list w r Hr) as [H|(t & rest' & H & H2)].
      * now left.
      * right. exists t, (JObj d :: rest'). split.
        -- rewrite H. now rewrite <- app_assoc.
        -- constructor; auto. now repeat split.
Qed.

Lemma update_identity (params : dict) (w : world) (doc : dict) (ts : list json) :
  tasks_file w = Holds (JObj doc) ->
  dict_get "tasks" doc = Some (JArr ts) ->
  Forall has_string_id ts ->
  exists doc' ts',
    tasks_file (snd (_update_task rt params w)) = Holds (JObj doc')
    /\ dict_get "tasks" doc' = Some (JArr ts')
    /\ Forall2 same_identity ts ts'.
Proof.
  intros Hfile Htasks Hts.
  assert (Hsame : tasks_file (snd (_update_task rt params w)) = tasks_file w ->
                  exists doc' ts',
                    tasks_file (snd (_update_task rt params w)) = Holds (JObj doc')
                    /\ dict_get "tasks" doc' = Some (JArr ts')
                    /\ Forall2 same_identity ts ts').
  { intros E. exists doc, ts. rewrite E. repeat split; auto.
    now apply same_identity_refl. }
  assert (Hrun : _update_task rt params w = (Ok (error_response "task_id is required"), w)
                 \/ _update_task rt params w
                    = update_scan rt params (dict_get_default "task_id" JNull params)
                                  (JObj doc) [] ts w).
  { unfold _update_task.
    destruct (truthy (dict_get_default "task_id" JNull params)); [right|now left].
    cbn [negb]. unfold bind, try_load, try_except, read_json, bind, ret.
    rewrite Hfile. unfold lift. simpl py_get. unfold dict_get_default.
    now rewrite Htasks. }
  destruct Hrun as [E|E].
  - apply Hsame. now rewrite E.
  - destruct (update_scan_identity params (dict_get_default "task_id" JNull params)
                                   doc ts Hts [] w _ E) as [H|(t & ts' & H & H2)].
    + now apply Hsame.
    + exists (persisted t ts' doc), ts'. repeat split; auto.
      apply persisted_tasks.
Qed.

(** X6.  An [update], whatever the request and whether or not it succeeds,
    never adds, removes or reorders records and never changes an
    identifier or a creation stamp: on a store in good order the stored
    list afterwards has as many records, with the same identifiers and the
    same [created_at] values position by position, and the store is still
    in good order. *)
Theorem update_keeps_identities :
  forall (params : dict) (w : world) (doc : dict) (ts : list json),
    tasks_file w = Holds (JObj doc) ->
    dict_get "tasks" doc = Some (JArr ts) ->
    Forall has_string_id ts ->
    exists doc' ts',
      tasks_file (snd (_update_task rt params w)) = Holds (JObj doc')
      /\ dict_get "tasks" doc' = Some (JArr ts')
      /\ Forall has_string_id ts'
      /\ List.length ts' = List.length ts
      /\ map (field "id") ts' = map (field "id") ts
      /\ map (field "created_at") ts' = map (field "created_at") ts.
Proof.
  intros params w doc ts Hfile Htasks Hts.
  destruct (update_identity params w doc ts Hfile Htasks Hts)
    as (doc' & ts' & A & B & C).
  destruct (same_identity_ids ts ts' C) as (D & E & F).
  exists doc', ts'. repeat split; auto.
  symmetry. eapply Forall2_length; eauto.
Qed.

Lemma well_kept_same_file (w w' : world) :
  tasks_file w' = tasks_file w -> well_kept w -> well_kept w'.
Proof.
  intros E (doc & ts & H). exists doc, ts. now rewrite E.
Qed.

Lemma saved_record_has_id (params : dict) (w : world) (n : nat) :
  has_string_id (saved_record params w n).
Proof.
  eexists _, _. repeat split. unfold make_task_id. discriminate.
Qed.

Lemma save_keeps_good_order (params : dict) (w : world) :
  well_kept w -> well_kept (snd (_save_task params w)).
Proof.
  intros Hw. destruct (writable w) eqn:E.
  - destruct Hw as (doc & ts & Hfile & Htasks & Hts).
    rewrite (save_appends params w doc ts); auto.
    exists (persisted (clock w (S (S (S (ticks w)))))
                      (ts ++ [saved_record params w (List.length ts)]) doc),
           (ts ++ [saved_record params w (List.length ts)])%list.
    repeat split.
    + apply persisted_tasks.
    + apply Forall_app. split; auto.
      constructor; [apply saved_record_has_id | constructor].
  - eapply well_kept_same_file; [|exact Hw].
    now apply (und_save params w E).
Qed.

Lemma update_keeps_good_order (params : dict) (w : world) :
  well_kept w -> well_kept (snd (_update_task rt params w)).
Proof.
  intros (doc & ts & Hfile & Htasks & Hts).
  destruct (update_identity params w doc ts Hfile Htasks Hts)
    as (doc' & ts' & A & B & C).
  exists doc', ts'. repeat split; auto.
  now apply (same_identity_ids ts ts').
Qed.

Lemma delete_keeps_good_order (params : dict) (w : world) :
  well_kept w -> well_kept (snd (_delete_task rt params w)).
Proof.
  intros Hw. pose proof Hw as (doc & ts & Hfile & Htasks & Hts).
  unfold _delete_task.
  set (tid := dict_get_default "task_id" JNull params).
  destruct (truthy tid); [|exact Hw].
  cbn [negb]. unfold bind, try_load, try_except, read_json, bind, ret.
  rewrite Hfile. unfold lift. simpl py_get. unfold dict_get_default.
  rewrite Htasks. simpl py_len. simpl py_iter. cbv beta iota.
  rewrite (filter_raising_total _ (other_id tid)).
  - destruct (Z.eqb _ _); [exact Hw|].
    simpl py_setitem. unfold datetime_now, write_json. cbn [writable].
    destruct (writable w); [|exact Hw].
    eexists _, _. split; [reflexivity|]. split; [apply persisted_tasks|].
    apply Forall_forall. intros t Ht. apply filter_In in Ht.
    rewrite Forall_forall in Hts. now apply Hts.
  - eapply Forall_impl; [|exact Hts].
    intros t (d & s & -> & Hid & _). unfold id_differs, other_id, field, py_getitem.
    now rewrite Hid.
Qed.

(** X7.  Every request keeps the store in good order: if the file holds
    an object whose task list consists of records with non-empty string
    identifiers, then so it does after [_run] has handled any input,
    whether the request succeeded, failed or was malformed. *)
Theorem run_keeps_store_in_good_order :
  forall (input_str : string) (w : world),
    well_kept w -> well_kept (snd (_run rt input_str w)).
Proof.
  intros input_str w Hw.
  assert (Hcatch : forall (body : M json),
             well_kept (snd (body w)) ->
             well_kept (snd (try_except body
                               (fun e =>
                                  match kind e with
                                  | JSONDecodeError =>
                                      Some (ret (error_response "Invalid JSON input"))
                                  | _ => Some (ret (error_response (message e)))
                                  end) w))).
  { intros body H. unfold try_except.
    destruct (body w) as [[r|e] w']; [exact H|].
    destruct (kind e); exact H. }
  unfold _run. apply Hcatch. unfold bind, lift.
  destruct (json_loads rt input_str) as [params|e]; [|exact Hw].
  unfold dispatch. destruct params; try exact Hw.
  repeat match goal with
         | |- well_kept (snd ((if ?b then _ else _) _)) => destruct b
         end.
  - eapply well_kept_same_file; [|exact Hw]. now rewrite load_keeps_world.
  - now apply save_keeps_good_order.
  - now apply update_keeps_good_order.
  - now apply delete_keeps_good_order.
  - eapply well_kept_same_file; [|exact Hw].
    apply (und_report rt any_world); [intros; exact I | exact I].
  - eapply well_kept_same_file; [|exact Hw].
    apply (und_export rt any_world); [intros; exact I | exact I].
  - exact Hw.
Qed.

End StoreInvariants.

(* ================================================================== *)
(** ** Edge cases of the operations *)

Section StoreEdges.

Variable rt : runtime.

Lemma default_absent (k : string) (x : json) (d : dict) :
  dict_get k d = None -> dict_get_default k x d = x.
Proof. unfold dict_get_default. now intros ->. Qed.

Lemma default_present (k : string) (x v : json) (d : dict) :
  dict_get k d = Some v -> dict_get_default k x d = v.
Proof. unfold dict_get_default. now intros ->. Qed.

Lemma enter_store (w : world) (doc : dict) :
  tasks_file w = Holds (JObj doc) -> try_load w = (Ok (Some (JObj doc)), w).
Proof.
  intros H. unfold try_load, try_except, bind, read_json, ret. now rewrite H.
Qed.

Lemma delete_absent (params : dict) (w : world) (doc : dict) (ts : list json)
      (sid : string) :
  tasks_file w = Holds (JObj doc) ->
  dict_get "tasks" doc = Some (JArr ts) ->
  Forall has_string_id ts ->
  dict_get "task_id" params = Some (JStr sid) ->
  sid <> "" ->
  Forall (fun t => has_id sid t = false) ts ->
  _delete_task rt params w = (Ok (not_found sid), w).
Proof.
  intros Hfile Htasks Hts Hid Hne Habs.
  unfold _delete_task, dict_get_default. rewrite Hid.
  change (truthy (JStr sid)) with (negb (String.eqb sid "")).
  destruct (String.eqb_spec sid ""); [contradiction|]. cbn [negb].
  unfold bind at 1. rewrite (enter_store w doc Hfile).
  unfold bind, lift. simpl py_get. unfold dict_get_default. rewrite Htasks.
  simpl py_len. simpl py_iter. cbv beta iota.
  rewrite (kept_after_delete sid ts Hts). fold (without_id sid ts).
  assert (E : List.length (without_id sid ts) = List.length ts).
  { apply filter_length_all. eapply Forall_impl; [|exact Habs].
    intros t Ht. simpl. now rewrite Ht. }
  rewrite E, Z.eqb_refl. reflexivity.
Qed.

Lemma delete_present (params : dict) (w : world) (doc : dict) (ts : list json)
      (sid : string) :
  tasks_file w = Holds (JObj doc) ->
  dict_get "tasks" doc = Some (JArr ts) ->
  Forall has_string_id ts ->
  dict_get "task_id" params = Some (JStr sid) ->
  Exists (fun t => has_id sid t = true) ts ->
  writable w = true ->
  sid <> ""
  /\ _delete_task rt params w
     = (Ok (delete_response sid (List.length (without_id sid ts))),
        World (Holds (JObj (persisted (clock w (ticks w)) (without_id sid ts) doc)))
              true (clock w) (S (ticks w))).
Proof.
  intros Hfile Htasks Hts Hid Hex Hw.
  assert (Hne : sid <> "").
  { intros ->. apply Exists_exists in Hex. destruct Hex as (t & Ht & Htrue).
    pose proof (no_empty_id ts Hts) as Hno. rewrite Forall_forall in Hno.
    rewrite (Hno t Ht) in Htrue. discriminate. }
  split; [exact Hne|].
  unfold _delete_task, dict_get_default. rewrite Hid.
  change (truthy (JStr sid)) with (negb (String.eqb sid "")).
  destruct (String.eqb_spec sid ""); [contradiction|]. cbn [negb].
  unfold bind at 1. rewrite (enter_store w doc Hfile).
  unfold bind, lift. simpl py_get. unfold dict_get_default. rewrite Htasks.
  simpl py_len. simpl py_iter. cbv beta iota.
  rewrite (kept_after_delete sid ts Hts). fold (without_id sid ts).
  assert (E : List.length (without_id sid ts) <> List.length ts).
  { intros E. apply filter_length_all in E. rewrite Forall_forall in E.
    apply Exists_exists in Hex. destruct Hex as (t & Ht & Htrue).
    specialize (E t Ht). simpl in E. rewrite Htrue in E. discriminate. }
  destruct (Z.eqb_spec (Z.of_nat (List.length (without_id sid ts)))
                       (Z.of_nat (List.length ts))) as [E'|_];
    [apply Nat2Z.inj in E'; contradiction|].
  simpl py_setitem. unfold datetime_now, write_json. cbn [writable].
  rewrite Hw. unfold set_file, fmt. reflexivity.
Qed.

(** X8.  Deleting is final: after a [delete] has removed the records with
    an identifier, a second [delete] of the same identifier answers "not
    found" and changes nothing. *)
Theorem delete_twice_reports_not_found :
  forall (params : dict) (w : world) (doc : dict) (ts : list json) (sid : string),
    tasks_file w = Holds (JObj doc) ->
    dict_get "tasks" doc = Some (JArr ts) ->
    Forall has_string_id ts ->
    dict_get "task_id" params = Some (JStr sid) ->
    Exists (fun t => has_id sid t = true) ts ->
    writable w = true ->
    exists w',
      _delete_task rt params w
      = (Ok (delete_response sid (List.length (without_id sid ts))), w')
      /\ _delete_task rt params w' = (Ok (not_found sid), w').
Proof.
  intros params w doc ts sid Hfile Htasks Hts Hid Hex Hw.
  destruct (delete_present params w doc ts sid Hfile Htasks Hts Hid Hex Hw)
    as (Hne & Hrun).
  eexists. split; [exact Hrun|].
  apply (delete_absent params _
                       (persisted (clock w (ticks w)) (without_id sid ts) doc)
                       (without_id sid ts) sid); auto.
  - apply persisted_tasks.
  - apply Forall_forall. intros t Ht. apply filter_In in Ht.
    rewrite Forall_forall in Hts. now apply Hts.
  - apply without_id_clean.
Qed.

(** X9.  A document without a ["tasks"] key counts as an empty
    collection.  [load] answers the empty sequence whatever the filters,
    [report] answers "No tasks found", [export] answers an empty list or
    the header row alone, [update] and [delete] answer "not found"; none
    of them changes the world.  A [save] adds the key, holding the new
    task alone, and keeps the other keys of the document. *)
Theorem missing_tasks_key_is_empty_collection :
  forall (params : dict) (w : world) (doc : dict),
    tasks_file w = Holds (JObj doc) ->
    dict_get "tasks" doc = None ->
    _load_tasks params w
    = (Ok (load_response [] (dict_get_default "last_updated" (JStr "") doc)), w)
    /\ _generate_report rt params w = (Ok empty_report, w)
    /\ _export_tasks rt params w
       = (Ok (if py_eq (dict_get_default "format" (JStr "json") params) (JStr "csv")
              then csv_export rt [] else json_export []), w)
    /\ (forall sid,
          dict_get "task_id" params = Some (JStr sid) -> sid <> "" ->
          _update_task rt params w = (Ok (not_found sid), w)
          /\ _delete_task rt params w = (Ok (not_found sid), w))
    /\ (writable w = true ->
        _save_task params w
        = (Ok (success "Task saved successfully" (saved_record params w 0)),
           World (Holds (JObj (persisted (clock w (S (S (S (ticks w)))))
                                         [saved_record params w 0] doc)))
                 true (clock w) (S (S (S (S (ticks w))))))
        /\ forall k, k <> "tasks" -> k <> "last_updated" ->
                     dict_get k (persisted (clock w (S (S (S (ticks w)))))
                                           [saved_record params w 0] doc)
                     = dict_get k doc).
Proof.
  intros params w doc Hfile Hnone.
  pose proof (default_absent "tasks" (JArr []) doc Hnone) as Hdef.
  split; [|split; [|split; [|split]]].
  - unfold _load_tasks, try_except, bind, read_json. rewrite Hfile.
    unfold lift at 1. simpl py_get. rewrite Hdef.
    destruct (truthy (dict_get_default "status" JNull params));
      destruct (truthy (dict_get_default "priority" JNull params)); reflexivity.
  - unfold _generate_report, bind. rewrite (enter_store w doc Hfile).
    unfold lift. simpl py_get. now rewrite Hdef.
  - unfold _export_tasks, bind. rewrite (enter_store w doc Hfile).
    unfold lift. simpl py_get. rewrite Hdef.
    destruct (py_eq _ _); reflexivity.
  - intros sid Hid Hne.
    assert (Ht : truthy (JStr sid) = true).
    { change (truthy (JStr sid)) with (negb (String.eqb sid "")).
      now destruct (String.eqb_spec sid ""). }
    rewrite <- (default_present "task_id" JNull _ params Hid) in Ht.
    split.
    + unfold _update_task. rewrite Ht. cbn [negb].
      unfold bind at 1. rewrite (enter_store w doc Hfile).
      unfold bind, lift. simpl py_get. rewrite Hdef.
      now rewrite (default_present "task_id" JNull _ params Hid).
    + unfold _delete_task. rewrite Ht. cbn [negb].
      unfold bind at 1. rewrite (enter_store w doc Hfile).
      unfold bind, lift. simpl py_get. rewrite Hdef.
      now rewrite (default_present "task_id" JNull _ params Hid).
  - intros Hw. split.
    + unfold _save_task, bind, try_except, read_json, lift, ret. rewrite Hfile.
      simpl py_get. rewrite Hdef.
      simpl py_len. unfold datetime_now, write_json. cbn [writable clock ticks].
      rewrite Hw. reflexivity.
    + intros k H1 H2. unfold persisted.
      now rewrite !dict_get_set_other by assumption.
Qed.

(** X10.  A file that holds JSON of the wrong shape is never overwritten.
    When the document is not an object, [load] answers an error, and
    [save], [report], [export], and [update] and [delete] given a task
    id, raise the attribute error of [.get]; the world is unchanged in
    every case. *)
Theorem non_object_document_is_refused :
  forall (params : dict) (w : world) (j : json),
    tasks_file w = Holds j ->
    (forall d, j <> JObj d) ->
    let fault := attribute_error j "get" in
    _load_tasks params w = (Ok (error_response (message fault)), w)
    /\ _save_task params w = (Raise fault, w)
    /\ _generate_report rt params w = (Raise fault, w)
    /\ _export_tasks rt params w = (Raise fault, w)
    /\ (truthy (dict_get_default "task_id" JNull params) = true ->
        _update_task rt params w = (Raise fault, w)
        /\ _delete_task rt params w = (Raise fault, w)).
Proof.
  intros params w j Hfile Hj fault.
  assert (Hget : py_get j "tasks" (JArr []) = Raise fault).
  { destruct j; try reflexivity. now destruct (Hj fields). }
  assert (Hload : try_load w = (Ok (Some j), w)).
  { unfold try_load, try_except, bind, read_json, ret. now rewrite Hfile. }
  repeat split.
  - unfold _load_tasks, try_except, bind, read_json. rewrite Hfile.
    unfold lift at 1. rewrite Hget. reflexivity.
  - unfold _save_task, bind, try_except, read_json, lift. rewrite Hfile.
    now rewrite Hget.
  - unfold _generate_report, bind. rewrite Hload. unfold lift. now rewrite Hget.
  - unfold _export_tasks, bind. rewrite Hload. unfold lift. now rewrite Hget.
  - unfold _update_task. rewrite H. cbn [negb]. unfold bind. rewrite Hload.
    unfold lift. now rewrite Hget.
  - unfold _delete_task. rewrite H. cbn [negb]. unfold bind. rewrite Hload.
    unfold lift. now rewrite Hget.
Qed.

(** X11.  Exporting as JSON and loading without filters agree: both answer
    the stored list itself, in stored order, with the same count, whatever
    the list holds. *)
Theorem json_export_agrees_with_load :
  forall (params request : dict) (w : world) (doc : dict) (ts : list json),
    tasks_file w = Holds (JObj doc) ->
    dict_get "tasks" doc = Some (JArr ts) ->
    dict_get "format" params = None ->
    dict_get "status" request = None ->
    dict_get "priority" request = None ->
    _export_tasks rt params w = (Ok (json_export ts), w)
    /\ _load_tasks request w
       = (Ok (load_response ts (dict_get_default "last_updated" (JStr "") doc)), w).
Proof.
  intros params request w doc ts Hfile Htasks Hfmt Hs Hp. split.
  - unfold _export_tasks. rewrite (default_absent "format" _ _ Hfmt).
    unfold bind at 1. rewrite (enter_store w doc Hfile).
    unfold bind, lift. simpl py_get.
    now rewrite (default_present "tasks" _ _ _ Htasks).
  - unfold _load_tasks, try_except, bind, read_json. rewrite Hfile.
    unfold lift at 1. simpl py_get.
    rewrite (default_present "tasks" _ _ _ Htasks).
    rewrite (default_absent "status" _ _ Hs), (default_absent "priority" _ _ Hp).
    reflexivity.
Qed.

End StoreEdges.

Section MoreEdges.

Variable rt : runtime.

(** X12.  A stored record without an ["id"] key breaks [delete] and
    [update]: [delete] raises the key error and removes nothing, even when
    other records carry the requested identifier; [update] raises it when
    it reaches that record before a match.  The world is unchanged. *)
Theorem record_without_id_raises_key_error :
  forall (params : dict) (w : world) (doc d : dict) (before after : list json)
         (sid : string),
    tasks_file w = Holds (JObj doc) ->
    dict_get "tasks" doc = Some (JArr (before ++ JObj d :: after)) ->
    Forall has_string_id before ->
    dict_get "id" d = None ->
    dict_get "task_id" params = Some (JStr sid) ->
    sid <> "" ->
    _delete_task rt params w = (Raise (Exn KeyError "'id'"), w)
    /\ (Forall (fun t => has_id sid t = false) before ->
        _update_task rt params w = (Raise (Exn KeyError "'id'"), w)).
Proof.
  intros params w doc d before after sid Hfile Htasks Hbefore Hd Hid Hne.
  assert (Ht : truthy (dict_get_default "task_id" JNull params) = true).
  { rewrite (default_present _ _ _ _ Hid).
    change (truthy (JStr sid)) with (negb (String.eqb sid "")).
    now destruct (String.eqb_spec sid ""). }
  split.
  - unfold _delete_task. rewrite Ht. cbn [negb].
    unfold bind at 1. rewrite (enter_store w doc Hfile).
    unfold bind, lift. simpl py_get. rewrite (default_present _ _ _ _ Htasks).
    simpl py_len. simpl py_iter. cbv beta iota.
    rewrite (default_present _ _ _ _ Hid).
    assert (E : filter_raising (id_differs (JStr sid)) (before ++ JObj d :: after)
                = Raise (Exn KeyError "'id'")).
    { clear Htasks. induction Hbefore as [|t before Hh _ IH]; simpl.
      - unfold id_differs at 1, py_getitem. rewrite Hd. reflexivity.
      - rewrite (id_differs_string_id sid t Hh). simpl. now rewrite IH. }
    now rewrite E.
  - intros Habs. unfold _update_task. rewrite Ht. cbn [negb].
    unfold bind at 1. rewrite (enter_store w doc Hfile).
    unfold bind at 1. unfold lift at 1. simpl py_get.
    rewrite (default_present _ _ _ _ Htasks).
    unfold bind at 1. unfold lift at 1. simpl py_iter.
    rewrite (default_present _ _ _ _ Hid).
    clear Htasks. generalize (@nil json) as seen.
    induction Hbefore as [|t before (d0 & s & -> & Hi & _) _ IH]; intros seen.
    + simpl app. simpl update_scan. unfold bind, lift, py_getitem.
      now rewrite Hd.
    + inversion Habs as [|? ? Hnot Hrest]; subst.
      simpl app. simpl update_scan. unfold bind at 1.
      unfold lift at 1, py_getitem. rewrite Hi.
      change (py_eq (JStr s) (JStr sid)) with (String.eqb s sid).
      unfold has_id, field_equals, field in Hnot. rewrite Hi in Hnot.
      rewrite Hnot. now apply IH.
Qed.

(** *** CSV rows *)



End MoreEdges.

(* ================================================================== *)
(** ** Further properties of the prioritisation *)

Section PrioritizeBehaviour.

Variable rt : runtime.






Lemma label_task_unlabelable (t : json) :
  unlabelable t -> exists e, label_task t = Raise e.
Proof.
  intros [Hnot|(d & -> & Hbad)].
  - destruct t; try (eexists; reflexivity). now destruct (Hnot fields).
  - unfold label_task. simpl py_get. cbn [obind]. unfold operand.
    fold (effective "urgency" d). fold (effective "importance" d).
    destruct (num_of (effective "urgency" d)) as [u|];
      [|eexists; reflexivity].
    destruct Hbad as [H|H]; [discriminate|]. rewrite H.
    eexists; reflexivity.
Qed.

Lemma label_all_unlabelable (ts : list json) :
  Exists unlabelable ts -> exists e, label_all ts = Raise e.
Proof.
  induction 1 as [t ts Ht|t ts _ (e & IH)]; simpl label_all.
  - destruct (label_task_unlabelable t Ht) as (e & ->). now exists e.
  - destruct (label_task t) as [t'|e']; [|now exists e'].
    simpl. rewrite IH. now exists e.
Qed.

Lemma label_all_strings (ss : list json) :
  Forall (fun t => exists s, t = JStr s) ss ->
  ss = [] \/ exists e, label_all ss = Raise e.
Proof.
  intros H. destruct H as [|t ss (s & ->) _]; [now left|].
  right. eexists. reflexivity.
Qed.

Lemma chars_strings (s : string) :
  Forall (fun t => exists s0, t = JStr s0) (chars s).
Proof. induction s; simpl; constructor; eauto. Qed.

Lemma keys_strings (d : dict) :
  Forall (fun t => exists s0, t = JStr s0) (map (fun kv => JStr (fst kv)) d).
Proof. induction d; simpl; constructor; eauto. Qed.

(** X15.  [prioritize_tasks_tool] answers [{"error": message}] and no
    partial result whenever the input does not parse, parses to anything
    but a list, or is a list in which some element is not a dict or has an
    urgency or importance that is not a number. *)
Theorem prioritize_rejects_bad_input :
  forall (tasks_json : string),
    (forall e, json_loads rt tasks_json = Raise e ->
               prioritize_tasks_tool rt tasks_json = error_response (message e))
    /\ (forall j, json_loads rt tasks_json = Ok j ->
                  (forall ts, j <> JArr ts) ->
                  exists msg, prioritize_tasks_tool rt tasks_json = error_response msg)
    /\ (forall ts, json_loads rt tasks_json = Ok (JArr ts) ->
                   Exists unlabelable ts ->
                   exists msg, prioritize_tasks_tool rt tasks_json = error_response msg).
Proof.
  intros tasks_json. split; [|split].
  - intros e He. unfold prioritize_tasks_tool, prioritize_body. now rewrite He.
  - intros j Hj Hnot. unfold prioritize_tasks_tool, prioritize_body.
    rewrite Hj. cbn [obind].
    destruct j as [| b | z | q | s | l | d]; try (eexists; reflexivity).
    + simpl py_iter. cbn [obind].
      destruct (label_all_strings (chars s) (chars_strings s)) as [E|(e & E)];
        rewrite E; eexists; reflexivity.
    + now destruct (Hnot l).
    + simpl py_iter. cbn [obind].
      destruct (label_all_strings _ (keys_strings d)) as [E|(e & E)];
        rewrite E; eexists; reflexivity.
  - intros ts Hload Hbad. unfold prioritize_tasks_tool, prioritize_body.
    rewrite Hload. cbn [obind]. change (py_iter (JArr ts)) with (Ok ts).
    cbn [obind].
    destruct (label_all_unlabelable ts Hbad) as (e & ->). eexists; reflexivity.
Qed.

End PrioritizeBehaviour.

(* ================================================================== *)
(** ** Invariants of the report *)

Section ReportInvariants.

Variable rt : runtime.







End ReportInvariants.

(* ================================================================== *)
(** ** Identifiers *)

Section Identifiers.

Variable rt : runtime.

Lemma digit_value_char (d : Z) :
  (0 <= d <= 9)%Z -> digit_value (digit_char d) = Some d.
Proof.
  intros H.
  assert (E : (d = 0 \/ d = 1 \/ d = 2 \/ d = 3 \/ d = 4 \/ d = 5 \/ d = 6
               \/ d = 7 \/ d = 8 \/ d = 9)%Z) by lia.
  repeat (destruct E as [->|E]; [reflexivity|]). now subst.
Qed.

Lemma digits_fuel_app (fuel : nat) (n : Z) (tail rest : string) :
  (digits_fuel fuel n tail ++ rest)%string = digits_fuel fuel n (tail ++ rest).
Proof.
  revert n tail. induction fuel as [|fuel IH]; intros n tail; simpl.
  - reflexivity.
  - destruct (n <? 10)%Z; [reflexivity|]. now rewrite IH.
Qed.

Lemma read_digits_cons (c : ascii) (s : string) (acc : Z) :
  read_digits (String c s) acc
  = match digit_value c with
    | Some d => read_digits s (10 * acc + d)%Z
    | None => (acc, String c s)
    end.
Proof. reflexivity. Qed.

(** Reading back what [digits_fuel] wrote. *)
Lemma read_digits_fuel (fuel : nat) :
  forall (n : Z) (tail : string),
    (0 <= n < 10 ^ Z.of_nat fuel)%Z ->
    exists k : Z,
      (0 <= k)%Z
      /\ forall acc, read_digits (digits_fuel fuel n tail) acc
                     = read_digits tail (acc * 10 ^ k + n)%Z.
Proof.
  induction fuel as [|fuel IH]; intros n tail Hn.
  - exists 0%Z. split; [lia|]. intros acc. simpl in *.
    f_equal. lia.
  - simpl digits_fuel.
    assert (Hmod : (0 <= n mod 10 <= 9)%Z)
      by (pose proof (Z.mod_pos_bound n 10); lia).
    destruct (Z.ltb_spec n 10) as [Hlt|Hge].
    + exists 1%Z. split; [lia|]. intros acc. rewrite read_digits_cons.
      rewrite (digit_value_char _ Hmod). f_equal.
      rewrite Z.mod_small by lia. lia.
    + assert (Hdiv : (0 <= n / 10 < 10 ^ Z.of_nat fuel)%Z).
      { split; [apply Z.div_pos; lia|].
        apply Z.div_lt_upper_bound; [lia|].
        rewrite Nat2Z.inj_succ, Z.pow_succ_r in Hn by lia. lia. }
      destruct (IH (n / 10)%Z (String (digit_char (n mod 10)) tail) Hdiv)
        as (k & Hk & Hread).
      exists (k + 1)%Z. split; [lia|]. intros acc. rewrite Hread.
      rewrite read_digits_cons. rewrite (digit_value_char _ Hmod). f_equal.
      rewrite Z.pow_add_r by lia.
      pose proof (Z.div_mod n 10). lia.
Qed.

Lemma read_digits_decimal (n : Z) (rest : string) :
  (0 <= n)%Z ->
  read_digits (str_of_nonneg n ++ String "_"%char rest) 0
  = (n, String "_"%char rest).
Proof.
  intros Hn. unfold str_of_nonneg. rewrite digits_fuel_app. simpl append.
  destruct (read_digits_fuel (S (Z.to_nat (Z.log2 n))) n (String "_"%char rest))
    as (k & _ & Hread).
  - split; [assumption|].
    rewrite Nat2Z.inj_succ, Z2Nat.id by apply Z.log2_nonneg.
    destruct (Z.eq_dec n 0) as [->|Hpos]; [reflexivity|].
    apply Z.lt_le_trans with (2 ^ Z.succ (Z.log2 n))%Z.
    + apply Z.log2_spec. lia.
    + apply Z.pow_le_mono_l. pose proof (Z.log2_nonneg n). lia.
  - rewrite Hread. reflexivity.
Qed.

Lemma make_task_id_injective (n m : Z) (t t' : datetime) :
  (0 <= n)%Z -> (0 <= m)%Z ->
  make_task_id n t = make_task_id m t' -> n = m.
Proof.
  intros Hn Hm H. unfold make_task_id in H.
  simpl append in H. injection H as H.
  unfold str_of_Z in H.
  destruct (Z.ltb_spec (n + 1) 0); [lia|].
  destruct (Z.ltb_spec (m + 1) 0); [lia|].
  apply (f_equal (fun s => fst (read_digits s 0))) in H.
  rewrite !read_digits_decimal in H by lia. simpl in H. lia.
Qed.

Lemma append_same_head (s a b : string) : (s ++ a = s ++ b)%string -> a = b.
Proof.
  induction s as [|c s IH]; simpl; intros H; [exact H|].
  injection H as H. now apply IH.
Qed.

(** X17.  Two identifiers are the same text exactly when they were built
    at the same collection size and in the same clock second; identifiers
    built at different sizes differ whatever the clock readings. *)
Theorem task_id_determines_sequence_number :
  forall (n m : Z) (t t' : datetime),
    (0 <= n)%Z -> (0 <= m)%Z ->
    (make_task_id n t = make_task_id m t'
     <-> n = m /\ strftime_stamp t = strftime_stamp t').
Proof.
  intros n m t t' Hn Hm. split.
  - intros H. pose proof (make_task_id_injective n m t t' Hn Hm H) as E.
    split; [exact E|]. subst m. unfold make_task_id in H.
    apply append_same_head in H. apply append_same_head in H.
    now apply (append_same_head "_") in H.
  - intros [-> E]. unfold make_task_id. now rewrite E.
Qed.

Lemma make_task_id_nonempty (n : Z) (t : datetime) : make_task_id n t <> "".
Proof. unfold make_task_id. discriminate. Qed.

Lemma sequenced_numbers (ts : list json) :
  forall start,
    (0 <= start)%Z ->
    sequenced start ts ->
    Forall (fun t => exists k stamp,
                (start <= k < start + Z.of_nat (List.length ts))%Z
                /\ field "id" t = Some (JStr (make_task_id k stamp))) ts.
Proof.
  induction ts as [|t ts IH]; intros start Hs Hseq; [constructor|].
  destruct Hseq as (_ & (stamp & Hid) & Hrest).
  constructor.
  - exists start, stamp. simpl List.length. split; [lia | exact Hid].
  - eapply Forall_impl; [|apply (IH (start + 1)%Z); [lia | exact Hrest]].
    intros x (k & st & Hk & Hx). exists k, st. simpl List.length.
    split; [lia | exact Hx].
Qed.

Lemma sequenced_has_ids (ts : list json) :
  forall start, sequenced start ts -> Forall has_string_id ts.
Proof.
  induction ts as [|t ts IH]; intros start Hseq; [constructor|].
  destruct Hseq as ((d & ->) & (stamp & Hid) & Hrest).
  constructor; [|now apply (IH (start + 1)%Z)].
  exists d, (make_task_id start stamp). repeat split; auto.
  apply make_task_id_nonempty.
Qed.

Lemma sequenced_append (ts : list json) (x : json) :
  forall start,
    sequenced start ts ->
    is_record x ->
    numbered (start + Z.of_nat (List.length ts)) x ->
    sequenced start (ts ++ [x]).
Proof.
  induction ts as [|t ts IH]; intros start Hseq Hx Hn; simpl.
  - simpl in Hn. rewrite Z.add_0_r in Hn. now repeat split.
  - destruct Hseq as (A & B & C). repeat split; auto.
    apply IH; auto.
    simpl List.length in Hn. rewrite Nat2Z.inj_succ in Hn.
    replace (start + 1 + Z.of_nat (List.length ts))%Z
      with (start + Z.succ (Z.of_nat (List.length ts)))%Z by lia.
    exact Hn.
Qed.

Lemma sequenced_distinct (ts : list json) :
  forall start,
    (0 <= start)%Z -> sequenced start ts -> NoDup (map (field "id") ts).
Proof.
  induction ts as [|t ts IH]; intros start Hs Hseq; simpl; [constructor|].
  pose proof Hseq as (_ & (stamp & Hid) & Hrest).
  constructor; [|apply (IH (start + 1)%Z); [lia | exact Hrest]].
  intros Hin. apply in_map_iff in Hin. destruct Hin as (x & Hx & Hin).
  pose proof (sequenced_numbers ts (start + 1)%Z ltac:(lia) Hrest) as Hnum.
  rewrite Forall_forall in Hnum. destruct (Hnum x Hin) as (k & st & Hk & Hxid).
  rewrite Hid, Hxid in Hx.
  assert (E : make_task_id k st = make_task_id start stamp) by congruence.
  apply make_task_id_injective in E; lia.
Qed.

(** An identifier built at the current size is carried by no record of a
    collection numbered by position. *)
Lemma sequenced_fresh (ts : list json) (t : datetime) :
  sequenced 0 ts ->
  Forall (fun x => has_id (make_task_id (Z.of_nat (List.length ts)) t) x = false) ts.
Proof.
  intros Hseq.
  pose proof (sequenced_numbers ts 0%Z ltac:(lia) Hseq) as Hnum.
  eapply Forall_impl; [|exact Hnum].
  intros x (k & st & Hk & Hx).
  unfold has_id, field_equals. rewrite Hx. apply String.eqb_neq.
  intros E. apply make_task_id_injective in E; lia.
Qed.

(** X18.  As long as the collection has only been appended to (its
    records are numbered by position), [save] assigns an identifier that
    no stored record carries; the collection stays numbered by position,
    and all its identifiers stay pairwise distinct. *)
Theorem save_is_fresh_on_appended_store :
  forall (params : dict) (w : world) (doc : dict) (ts : list json),
    tasks_file w = Holds (JObj doc) ->
    dict_get "tasks" doc = Some (JArr ts) ->
    sequenced 0 ts ->
    writable w = true ->
    exists task w' sid,
      _save_task params w = (Ok (success "Task saved successfully" task), w')
      /\ tasks_file w'
         = Holds (JObj (persisted (clock w (S (S (S (ticks w)))))
                                  (ts ++ [task]) doc))
      /\ field "id" task = Some (JStr sid)
      /\ Forall (fun t => has_id sid t = false) ts
      /\ sequenced 0 (ts ++ [task])
      /\ NoDup (map (field "id") (ts ++ [task])).
Proof.
  intros params w doc ts Hfile Htasks Hseq Hw.
  assert (Hnew : sequenced 0 (ts ++ [saved_record params w (List.length ts)])).
  { apply sequenced_append; auto.
    - eexists. reflexivity.
    - exists (clock w (ticks w)). reflexivity. }
  exists (saved_record params w (List.length ts)),
         (world_after_save params w doc ts),
         (make_task_id (Z.of_nat (List.length ts)) (clock w (ticks w))).
  repeat split.
  - apply save_appends; auto.
  - now apply sequenced_fresh.
  - exact Hnew.
  - apply (sequenced_distinct _ 0%Z); [lia | exact Hnew].
Qed.

Lemma update_enters_scan (params : dict) (w : world) (doc : dict) (ts : list json) :
  tasks_file w = Holds (JObj doc) ->
  dict_get "tasks" doc = Some (JArr ts) ->
  truthy (dict_get_default "task_id" JNull params) = true ->
  _update_task rt params w
  = update_scan rt params (dict_get_default "task_id" JNull params)
                (JObj doc) [] ts w.
Proof.
  intros Hfile Htasks Ht. unfold _update_task. rewrite Ht. cbn [negb].
  unfold bind, try_load, try_except, read_json, bind, ret. rewrite Hfile.
  unfold lift. simpl py_get. now rewrite (default_present _ _ _ _ Htasks).
Qed.

(** X19.  On a collection that has only been appended to, a [save]
    followed by an [update] that names the identifier the save returned
    rewrites the record just saved and no other: the stored list is then
    the earlier records, untouched, followed by the rewritten new
    record. *)
Theorem save_then_update_rewrites_new_task :
  forall (params request : dict) (w : world) (doc : dict) (ts : list json),
    tasks_file w = Holds (JObj doc) ->
    dict_get "tasks" doc = Some (JArr ts) ->
    sequenced 0 ts ->
    writable w = true ->
    dict_get "task_id" request
    = Some (JStr (make_task_id (Z.of_nat (List.length ts)) (clock w (ticks w)))) ->
    exists saved w1 doc2 w2,
      _save_task params w
      = (Ok (success "Task saved successfully" (JObj saved)), w1)
      /\ dict_get "id" saved = dict_get "task_id" request
      /\ _update_task rt request w1
         = (Ok (success "Task updated successfully"
                        (JObj (updated_record request
                                              (clock w (S (S (S (S (ticks w))))))
                                              saved))), w2)
      /\ tasks_file w2 = Holds (JObj doc2)
      /\ dict_get "tasks" doc2
         = Some (JArr (ts ++ [JObj (updated_record
                                      request
                                      (clock w (S (S (S (S (ticks w))))))
                                      saved)])).
Proof.
  intros params request w doc ts Hfile Htasks Hseq Hw Hreq.
  set (sid := make_task_id (Z.of_nat (List.length ts)) (clock w (ticks w))) in *.
  pose proof (save_appends params w doc ts (or_introl Hfile) Htasks Hw) as Hsave.
  unfold saved_record, new_task_record in Hsave. fold sid in Hsave.
  eexists _, _, _, _. split; [exact Hsave|]. split; [now rewrite Hreq|].
  assert (Ht : truthy (dict_get_default "task_id" JNull request) = true).
  { rewrite (default_present _ _ _ _ Hreq).
    change (truthy (JStr sid)) with (negb (String.eqb sid "")).
    destruct (String.eqb_spec sid "") as [E|_]; [|reflexivity].
    now apply make_task_id_nonempty in E. }
  split; [|split].
  - rewrite (update_enters_scan request (world_after_save params w doc ts)
                                _ _ eq_refl (persisted_tasks _ _ _) Ht).
    rewrite (default_present _ _ _ _ Hreq).
    unfold saved_record, new_task_record. fold sid.
    match goal with
    | |- update_scan _ _ _ (JObj ?dc) [] (ts ++ [JObj ?d]) ?w1 = _ =>
        pose proof (update_scan_present rt request sid dc d ts [] [] w1) as Hscan
    end.
    rewrite Hscan.
    + reflexivity.
    + now apply (sequenced_has_ids ts 0%Z).
    + now apply sequenced_fresh.
    + unfold has_id, field_equals, field. simpl dict_get. apply String.eqb_refl.
    + reflexivity.
  - reflexivity.
  - apply persisted_tasks.
Qed.

End Identifiers.

(* ================================================================== *)
(** ** Closed examples of the further properties *)

Lemma pending_task_sequenced : sequenced 0 [pending_task].
Proof.
  repeat split.
  - eexists. reflexivity.
  - exists (fixture_clock 0). reflexivity.
Qed.

Lemma pending_task_listed : Forall has_string_id [pending_task].
Proof. constructor; [apply pending_task_has_id | constructor]. Qed.

Lemma save_then_load_witness :
  exists task w',
    _save_task [("title", JStr "B")] (store_of [pending_task])
    = (Ok (success "Task saved successfully" task), w')
    /\ fst (_load_tasks [] w')
       = Ok (JObj [("tasks", JArr [pending_task; task]); ("count", JInt 2);
                   ("last_updated", JStr "2024-01-15T10:30:00.000004")]).
Proof.
  destruct (save_then_load_lists_new_task_last
              [("title", JStr "B")] [] (store_of [pending_task]) _ [pending_task]
              eq_refl eq_refl
              (Forall_cons _ (has_string_id_record _ pending_task_has_id)
                           (Forall_nil _))
              eq_refl eq_refl eq_refl)
    as (task & w' & Hsave & Hload).
  exists task, w'. split; [exact Hsave|]. now rewrite Hload.
Defined.

Lemma unreadable_file_witness :
  _generate_report demo_runtime [] (World Corrupt true fixture_clock 0)
  = (Ok (error_response "No tasks file found"), World Corrupt true fixture_clock 0).
Proof.
  apply (operations_report_unreadable_file
           demo_runtime [] (World Corrupt true fixture_clock 0)).
  intros doc. discriminate.
Defined.

Lemma unwritable_store_witness :
  same_store locked_store (snd (_run demo_runtime "archive" locked_store)).
Proof.
  apply (unwritable_store_is_never_changed demo_runtime "archive" locked_store).
  reflexivity.
Defined.

Lemma update_identities_witness :
  exists doc' ts',
    tasks_file (snd (_update_task demo_runtime update_request (store_of [pending_task])))
    = Holds (JObj doc')
    /\ dict_get "tasks" doc' = Some (JArr ts')
    /\ map (field "id") ts' = [Some (JStr "task_1_20240115103000")].
Proof.
  destruct (update_keeps_identities
              demo_runtime update_request (store_of [pending_task]) _ [pending_task]
              eq_refl eq_refl pending_task_listed)
    as (doc' & ts' & A & B & _ & _ & C & _).
  exists doc', ts'. repeat split; assumption.
Defined.

Lemma good_order_witness :
  well_kept (snd (_run demo_runtime "archive" (store_of [pending_task]))).
Proof.
  apply (run_keeps_store_in_good_order
           demo_runtime "archive" (store_of [pending_task])).
  eexists _, _. repeat split. apply pending_task_listed.
Defined.

Lemma delete_twice_witness :
  exists w',
    _delete_task demo_runtime delete_first (store_of [pending_task])
    = (Ok (delete_response "task_1_20240115103000" 0), w')
    /\ _delete_task demo_runtime delete_first w'
       = (Ok (not_found "task_1_20240115103000"), w').
Proof.
  apply (delete_twice_reports_not_found
           demo_runtime delete_first (store_of [pending_task]) _ [pending_task]
           "task_1_20240115103000" eq_refl eq_refl pending_task_listed eq_refl).
  - constructor. reflexivity.
  - reflexivity.
Defined.

Lemma missing_tasks_key_witness :
  _generate_report demo_runtime [] bare_store = (Ok empty_report, bare_store).
Proof.
  apply (missing_tasks_key_is_empty_collection
           demo_runtime [] bare_store [("owner", JStr "me")] eq_refl eq_refl).
Defined.

Lemma non_object_document_witness :
  _save_task [("title", JStr "B")] (World (Holds (JArr [])) true fixture_clock 0)
  = (Raise (attribute_error (JArr []) "get"),
     World (Holds (JArr [])) true fixture_clock 0).
Proof.
  apply (non_object_document_is_refused
           demo_runtime [("title", JStr "B")]
           (World (Holds (JArr [])) true fixture_clock 0) (JArr []) eq_refl).
  intros d. discriminate.
Defined.

Lemma json_export_witness :
  _export_tasks demo_runtime [] (store_of [pending_task; late_task])
  = (Ok (json_export [pending_task; late_task]), store_of [pending_task; late_task]).
Proof.
  apply (json_export_agrees_with_load
           demo_runtime [] [] (store_of [pending_task; late_task]) _
           [pending_task; late_task] eq_refl eq_refl eq_refl eq_refl eq_refl).
Defined.

Lemma key_error_witness :
  _delete_task demo_runtime delete_first (store_of [pending_task; nameless_task])
  = (Raise (Exn KeyError "'id'"), store_of [pending_task; nameless_task]).
Proof.
  apply (record_without_id_raises_key_error
           demo_runtime delete_first (store_of [pending_task; nameless_task])
           _ _ [pending_task] [] "task_1_20240115103000"
           eq_refl eq_refl pending_task_listed eq_refl eq_refl).
  discriminate.
Defined.




Lemma task_id_sequence_witness :
  make_task_id 1 (fixture_clock 5) = make_task_id 1 (fixture_clock 10).
Proof.
  apply (task_id_determines_sequence_number
           1 1 (fixture_clock 5) (fixture_clock 10)); [lia | lia |].
  split; reflexivity.
Defined.

Lemma fresh_save_witness :
  exists task w' sid,
    _save_task [("title", JStr "B")] (store_of [pending_task])
    = (Ok (success "Task saved successfully" task), w')
    /\ field "id" task = Some (JStr sid)
    /\ Forall (fun t => has_id sid t = false) [pending_task].
Proof.
  destruct (save_is_fresh_on_appended_store
              [("title", JStr "B")] (store_of [pending_task]) _ [pending_task]
              eq_refl eq_refl pending_task_sequenced eq_refl)
    as (task & w' & sid & A & _ & B & C & _).
  exists task, w', sid. repeat split; assumption.
Defined.

Lemma save_then_update_witness :
  exists saved w1 doc2 w2,
    _save_task [("title", JStr "B")] (store_of [pending_task])
    = (Ok (success "Task saved successfully" (JObj saved)), w1)
    /\ fst (_update_task demo_runtime
                         [("task_id", JStr "task_2_20240115103000");
                          ("status", JStr "completed")] w1)
       = Ok (success "Task updated successfully"
                     (JObj (updated_record
                              [("task_id", JStr "task_2_20240115103000");
                               ("status", JStr "completed")]
                              (fixture_clock 4) saved)))
    /\ tasks_file w2 = Holds (JObj doc2).
Proof.
  destruct (save_then_update_rewrites_new_task
              demo_runtime [("title", JStr "B")]
              [("task_id", JStr "task_2_20240115103000");
               ("status", JStr "completed")]
              (store_of [pending_task]) _ [pending_task]
              eq_refl eq_refl pending_task_sequenced eq_refl eq_refl)
    as (saved & w1 & doc2 & w2 & A & _ & B & C & _).
  exists saved, w1, doc2, w2. split; [exact A|]. split; [now rewrite B | exact C].
Defined.
